(** * ChRIS API and ChRIS store clients over Collection+JSON

    A shallow embedding of [js/chrisAPI/src/client.js] (class [Client]) and
    [js/chrisStoreAPI/src/client.js] (class [StoreClient]).

    - JavaScript values are an inductive type with the language's truthiness
      and string conversion written out.
    - A promise is modelled by its final [outcome]: resolved, rejected, or
      never settled because an exception left the task body after its
      [try]/[catch] block.
    - The remote service is a parameter: a function from a wire request and
      the server's state to a failure or a response, and the next state.
      Every request that is sent is appended to a log. *)

From Stdlib Require Import ZArith List String Bool Lia DecimalString.
Import ListNotations.

Local Open Scope Z_scope.
Local Open Scope string_scope.
Local Open Scope list_scope.

Set Implicit Arguments.

(** ** JavaScript values *)

Inductive jsval : Type :=
| Undefined
| Null
| Bool (b : bool)
| Num (n : Z)
| Str (s : string).

(** [ToBoolean]. *)
Definition truthy (v : jsval) : bool :=
  match v with
  | Undefined | Null => false
  | Bool b => b
  | Num n => negb (n =? 0)%Z
  | Str s => negb (s =? "")
  end.

(** [ToString], as used by string concatenation with [+]. *)
Definition to_string (v : jsval) : string :=
  match v with
  | Undefined => "undefined"
  | Null => "null"
  | Bool true => "true"
  | Bool false => "false"
  | Num n => NilZero.string_of_int (Z.to_int n)
  | Str s => s
  end.

(** Strict equality [===] on primitive values. *)
Definition strict_eqb (a b : jsval) : bool :=
  match a, b with
  | Undefined, Undefined | Null, Null => true
  | Bool x, Bool y => Bool.eqb x y
  | Num x, Num y => (x =? y)%Z
  | Str x, Str y => (x =? y)
  | _, _ => false
  end.

(** A plain object with primitive fields: the properties in insertion order. *)
Definition object := list (string * jsval).

(** [o[k]]: [undefined] for a missing property. *)
Fixpoint get_prop (o : object) (k : string) : jsval :=
  match o with
  | [] => Undefined
  | (k', v) :: o' => if k' =? k then v else get_prop o' k
  end.

Fixpoint has_prop (o : object) (k : string) : bool :=
  match o with
  | [] => false
  | (k', _) :: o' => (k' =? k) || has_prop o' k
  end.

(** [o[k] = v]: an existing property keeps its place, a new one goes last. *)
Fixpoint set_prop (o : object) (k : string) (v : jsval) : object :=
  match o with
  | [] => [(k, v)]
  | (k', v') :: o' =>
      if k' =? k then (k', v) :: o' else (k', v') :: set_prop o' k v
  end.

(** ** The Collection+JSON envelope *)

Record Link := { link_rel : string; link_href : string }.

Record Descriptor := { d_name : string; d_value : jsval }.

Record Item := {
  item_href : string;
  item_data : list Descriptor;
  item_links : list Link }.

Record Template := { template_data : list Descriptor }.

Record Collection := {
  coll_version : string;
  coll_href : string;
  coll_links : list Link;
  coll_items : list Item;
  coll_template : option Template;
  coll_error : option string }.

(** Both a collection and an item carry links. *)
Class Linked (A : Type) := links_of : A -> list Link.
#[export] Instance Linked_Collection : Linked Collection := coll_links.
#[export] Instance Linked_Item : Linked Item := item_links.

(** ** Codec helpers of [cj.js] *)

Module Collection.

(** Modelled from the spec: [Collection.getLinkRelationUrls] of [cj.js],
    which is not part of the sources. It returns the URLs of all links of
    the container whose relation equals [relationName], in source order,
    and the empty sequence when there is none. *)
Definition getLinkRelationUrls {A} `{Linked A} (obj : A)
    (relationName : string) : list string :=
  map link_href
      (filter (fun l => link_rel l =? relationName) (links_of obj)).

(** Modelled from the spec: [Collection.getItemDescriptors] of [cj.js],
    which is not part of the sources. It flattens the descriptor sequence
    of an item into a plain object; a later descriptor overwrites an
    earlier one of the same name. *)
Definition getItemDescriptors (item : Item) : object :=
  fold_left (fun o d => set_prop o (d_name d) (d_value d))
            (item_data item) [].

(** Modelled from the spec: [Collection.makeTemplate] of [cj.js], which is
    not part of the sources. It turns a plain object into the descriptor
    sequence of a write template, in the object's iteration order; null and
    absent values are left out. The clients below take the template
    builder as a parameter; this one instantiates it in the examples. *)
Definition makeTemplate (o : object) : Template :=
  {| template_data :=
       map (fun kv => {| d_name := fst kv; d_value := snd kv |})
           (filter (fun kv => match snd kv with
                              | Undefined | Null => false
                              | _ => true
                              end) o) |}.

End Collection.

(** ** Wire requests, responses and exceptions *)

(** The [auth] object: a username and password, or a token. *)
Inductive Auth : Type :=
| BasicAuth (username password : string)
| TokenAuth (token : string).

(** What the clients hand to the transport as a URL: a string, the array
    that [getLinkRelationUrls] returns, or [undefined] (index 0 of an empty
    array). *)
Inductive jsurl : Type :=
| UUndefined
| UStr (s : string)
| UArr (l : list string).

Definition url_truthy (u : jsurl) : bool :=
  match u with
  | UUndefined => false
  | UStr s => negb (s =? "")
  | UArr _ => true
  end.

(** [urls[0]]. *)
Definition first_url (urls : list string) : jsurl :=
  match urls with
  | [] => UUndefined
  | u :: _ => UStr u
  end.

(** [Array.prototype.toString]: the elements joined by a comma. *)
Fixpoint join (l : list string) : string :=
  match l with
  | [] => ""
  | [s] => s
  | s :: l' => s ++ "," ++ join l'
  end.

Definition url_to_string (u : jsurl) : string :=
  match u with
  | UUndefined => "undefined"
  | UStr s => s
  | UArr l => join l
  end.

Inductive method : Type := GET | POST | PUT | DELETE.

(** A [searchParams] argument: [null], an object of filters, or a number
    (where a caller passes its timeout in that position). *)
Inductive params : Type :=
| PNull
| PNum (n : Z)
| PObj (o : object).

Definition params_truthy (p : params) : bool :=
  match p with
  | PNull => false
  | PNum n => negb (n =? 0)%Z
  | PObj _ => true
  end.

(** A request body: none, a plain JSON object, or the envelope
    [{template: ...}]. *)
Inductive body : Type :=
| NoBody
| BodyJson (o : object)
| BodyTemplate (t : Template).

(** A file object [{<field>: <blob>}] sent as the binary part. *)
Definition upload := (string * string)%type.

Record request := {
  rq_method : method;
  rq_url : jsurl;
  rq_params : params;
  rq_body : body;
  rq_file : option upload;
  rq_auth : option Auth;
  rq_contentType : string;
  rq_timeout : Z }.

(** [resp.data]: the [collection] member when there is one, and the other
    top-level members ([token], field-keyed errors). *)
Record payload := {
  p_collection : option Collection;
  p_fields : object }.

Record response := { status : Z; resp_data : payload }.

(** [RequestException] is the only exception class of the sources and
    [TypeError] is the language's; the other three are the remaining
    classes of the specification's error taxonomy. *)
Inductive exn_class : Type :=
| RequestException
| TypeError
| ConfigError
| ProtocolError
| NotFoundError.

Record exn := {
  ex_class : exn_class;
  ex_message : string;
  ex_request : option request;
  ex_response : option response }.

(** [new RequestException(message)]. *)
Definition new_RequestException (message : string) : exn :=
  {| ex_class := RequestException; ex_message := message;
     ex_request := None; ex_response := None |}.

(** Reading property [prop] of [undefined]. *)
Definition undefined_read (prop : string) : exn :=
  {| ex_class := TypeError;
     ex_message := "Cannot read properties of undefined (reading '"
                   ++ prop ++ "')";
     ex_request := None; ex_response := None |}.

(** Use of a value that may be [undefined] as an object with member
    [prop]. *)
Definition defined {A B} (prop : string) (o : option A) (k : A -> exn + B)
    : exn + B :=
  match o with
  | None => inl (undefined_read prop)
  | Some a => k a
  end.

(** ** Promises *)

(** The final state of a promise. [Unsettled e]: exception [e] left the
    task generator outside its [try] block, so neither [resolve] nor
    [reject] of the enclosing promise is ever called. *)
Inductive outcome (A : Type) : Type :=
| Resolved (a : A)
| Rejected (e : exn)
| Unsettled (e : exn).
Arguments Rejected {A} e.
Arguments Unsettled {A} e.

(** An asynchronous computation over a state [St]. *)
Definition async (St A : Type) : Type := St -> outcome A * St.

Definition resolve {St A} (a : A) : async St A := fun s => (Resolved a, s).
Definition reject {St A} (e : exn) : async St A := fun s => (Rejected e, s).

(** [m.then(k)], and equally [x = yield m; k(x)] inside a [try] block whose
    handler rejects. *)
Definition and_then {St A B} (m : async St A) (k : A -> async St B)
    : async St B :=
  fun s =>
    match m s with
    | (Resolved a, s') => k a s'
    | (Rejected e, s') => (Rejected e, s')
    | (Unsettled e, s') => (Unsettled e, s')
    end.

Declare Scope async_scope.
Delimit Scope async_scope with async.
Notation "x <- m ;; k" := (and_then m (fun x => k))
  (at level 100, m at next level, right associativity) : async_scope.
Local Open Scope async_scope.

(** Synchronous code that may throw, run in a [then] callback or inside the
    [try] block: a throw rejects the promise. *)
Definition settle {St A} (r : exn + A) : async St A :=
  match r with
  | inl e => reject e
  | inr a => resolve a
  end.

(** [resolve(f(...))] placed after the [try]/[catch] of a task generator: a
    throw of [f] is caught by nothing. *)
Definition resolve_unguarded {St A} (r : exn + A) : async St A :=
  match r with
  | inl e => fun s => (Unsettled e, s)
  | inr a => resolve a
  end.

(** State accessors for methods of an object [O] in a world [W]. *)
Definition this {O W} : async (O * W) O := fun s => (Resolved (fst s), s).
Definition assign {O W} (o : O) : async (O * W) unit :=
  fun s => (Resolved tt, (o, snd s)).
Definition in_world {O W A} (m : async W A) : async (O * W) A :=
  fun s => let (r, w) := m (snd s) in (r, (fst s, w)).

(** ** Transport *)

(** What the transport reports when a call fails: a non-2xx response, a
    network fault or a timeout. *)
Record failure := { f_message : string; f_response : option response }.

Section Transport.

(** The remote service. *)
Variable S : Type.
Variable respond : request -> S -> (failure + response) * S.

Record world := { server : S; sent : list request }.

(** Modelled from the spec: the one place where [request.js], which is
    not part of the sources, talks to the network. Every failure of the
    transport is normalised to one [RequestException] that carries the
    request and the response. *)
Definition send (r : request) : async world response :=
  fun w =>
    let (res, s) := respond r (server w) in
    let w' := {| server := s; sent := sent w ++ [r] |} in
    match res with
    | inl f => (Rejected {| ex_class := RequestException;
                            ex_message := f_message f;
                            ex_request := Some r;
                            ex_response := f_response f |}, w')
    | inr resp => (Resolved resp, w')
    end.

(** Modelled from the spec: the [Request] class of [request.js], which is
    not part of the sources. An instance holds the credentials, the
    content type and the timeout; each verb submits one wire request. *)
Record Request := {
  req_auth : option Auth;
  req_contentType : string;
  req_timeout : Z }.

(** Modelled from the spec: [get(url, searchParams)] of [request.js]. *)
Definition Request_get (req : Request) (u : jsurl) (searchParams : params)
    : async world response :=
  send {| rq_method := GET; rq_url := u; rq_params := searchParams;
          rq_body := NoBody; rq_file := None; rq_auth := req_auth req;
          rq_contentType := req_contentType req;
          rq_timeout := req_timeout req |}.

(** Modelled from the spec: [post(url, data, uploadFileObj)] of
    [request.js]; with a file the request is multipart. *)
Definition Request_post (req : Request) (u : jsurl) (b : body)
    (uploadFileObj : option upload) : async world response :=
  send {| rq_method := POST; rq_url := u; rq_params := PNull;
          rq_body := b; rq_file := uploadFileObj; rq_auth := req_auth req;
          rq_contentType := req_contentType req;
          rq_timeout := req_timeout req |}.

(** Modelled from the spec: [put(url, data)] of [request.js]. *)
Definition Request_put (req : Request) (u : jsurl) (b : body)
    : async world response :=
  send {| rq_method := PUT; rq_url := u; rq_params := PNull;
          rq_body := b; rq_file := None; rq_auth := req_auth req;
          rq_contentType := req_contentType req;
          rq_timeout := req_timeout req |}.

(** Modelled from the spec: [delete(url)] of [request.js]; it has no
    body. *)
Definition Request_delete (req : Request) (u : jsurl)
    : async world response :=
  send {| rq_method := DELETE; rq_url := u; rq_params := PNull;
          rq_body := NoBody; rq_file := None; rq_auth := req_auth req;
          rq_contentType := req_contentType req;
          rq_timeout := req_timeout req |}.

End Transport.

(** ** The ChRIS store client ([js/chrisStoreAPI/src/client.js]) *)

Module StoreClient.

Definition collection_json : string := "application/vnd.collection+json".

Record t := {
  storeUrl : string;
  storeQueryUrl : string;
  pipelinesUrl : jsurl;
  pipelinesQueryUrl : string;
  auth : option Auth;
  timeout : Z;
  contentType : string }.

(** [constructor(storeUrl, auth = null, timeout = 30000)]; [None] is the
    absent [auth]. *)
Definition constructor (storeUrl : string) (auth : option Auth)
    (timeout : Z) : t :=
  {| storeUrl := storeUrl;
     storeQueryUrl := storeUrl ++ "search/";
     pipelinesUrl := UStr "";
     pipelinesQueryUrl := "";
     auth := auth;
     timeout := timeout;
     contentType := collection_json |}.

(** The result object of [getDataFromCollection]: [data] is an array of
    descriptor objects for a list and one descriptor object for an item;
    the page flags are set for a list only. *)
Inductive result_data : Type :=
| DataList (l : list object)
| DataItem (o : object).

Record result := {
  data : result_data;
  hasNextPage : option bool;
  hasPreviousPage : option bool }.

(** [next.length ? true : false]. *)
Definition nonempty {A} (l : list A) : bool :=
  match l with
  | [] => false
  | _ :: _ => true
  end.

(** [static getDataFromCollection(coll, collection_type = 'item')]. In the
    item branch [coll.items[0]] is read without a guard; for an empty
    sequence it is [undefined], which has no descriptors to read. *)
Definition getDataFromCollection (coll : Collection)
    (collection_type : string) : exn + result :=
  if collection_type =? "list" then
    let next := Collection.getLinkRelationUrls coll "next" in
    let previous := Collection.getLinkRelationUrls coll "previous" in
    inr {| data := DataList (map Collection.getItemDescriptors
                                 (coll_items coll));
           hasNextPage := Some (nonempty next);
           hasPreviousPage := Some (nonempty previous) |}
  else
    defined "data" (nth_error (coll_items coll) 0)
      (fun item => inr {| data := DataItem
                                    (Collection.getItemDescriptors item);
                          hasNextPage := None;
                          hasPreviousPage := None |}).

(** The same call on [resp.data.collection], which is [undefined] when the
    response has no such member. *)
Definition getDataFromResponse (resp : response) (collection_type : string)
    : exn + result :=
  defined "items" (p_collection (resp_data resp))
    (fun coll => getDataFromCollection coll collection_type).

(** [new RequestException('Could not find resource with id: ' + id)]. *)
Definition not_found (id : jsval) : exn :=
  new_RequestException ("Could not find resource with id: " ++ to_string id).

Section Methods.

Variable S : Type.
Variable respond : request -> S -> (failure + response) * S.

(** [Collection.makeTemplate] of [cj.js]: the clients only forward what
    it returns. *)
Variable makeTemplate : object -> Template.

Let W := world S.

(** [new Request(self.auth, self.contentType, self.timeout)]. *)
Definition new_Request (self : t) : Request :=
  {| req_auth := auth self;
     req_contentType := contentType self;
     req_timeout := timeout self |}.

(** [_fetchCollection(url, searchParams = null)]. *)
Definition _fetchCollection (self : t) (u : jsurl) (searchParams : params)
    : async W (option Collection) :=
  resp <- Request_get respond (new_Request self) u searchParams ;;
  resolve (p_collection (resp_data resp)).

(** [_getItemResourceData(resQueryUrl, id)]. *)
Definition _getItemResourceData (self : t) (resQueryUrl : string)
    (id : jsval) : async W result :=
  let searchParams := PObj [("id", id)] in
  coll <- _fetchCollection self (UStr resQueryUrl) searchParams ;;
  settle (defined "items" coll (fun coll =>
    if nonempty (coll_items coll) then getDataFromCollection coll "item"
    else inl (not_found id))).

(** [_getListResourceData(resUrl, searchParams = null)]. *)
Definition _getListResourceData (self : t) (resUrl : jsurl)
    (searchParams : params) : async W result :=
  coll <- _fetchCollection self resUrl searchParams ;;
  settle (defined "items" coll (fun coll =>
    getDataFromCollection coll "list")).

(** [_getResourceRelatedListData(resQueryUrl, id, listRelName,
    params = null)]: the whole body is inside the [try] block. *)
Definition _getResourceRelatedListData (self : t) (resQueryUrl : string)
    (id : jsval) (listRelName : string) (params : params)
    : async W result :=
  let result := {| data := DataList [];
                   hasNextPage := Some false;
                   hasPreviousPage := Some false |} in
  coll <- _fetchCollection self (UStr resQueryUrl) (PObj [("id", id)]) ;;
  match coll with
  | None => reject (undefined_read "items")
  | Some coll =>
      match coll_items coll with
      | [] => reject (not_found id)
      | item :: _ =>
          match Collection.getLinkRelationUrls item listRelName with
          | [] => resolve result
          | link :: _ =>
              coll <- _fetchCollection self (UStr link) params ;;
              settle (defined "items" coll (fun coll =>
                getDataFromCollection coll "list"))
          end
      end
  end.

(** [getPlugins(searchParams = null)]. *)
Definition getPlugins (self : t) (searchParams : params)
    : async W result :=
  let u := if params_truthy searchParams then storeQueryUrl self
           else storeUrl self in
  _getListResourceData self (UStr u) searchParams.

(** [getPlugin(id)]. *)
Definition getPlugin (self : t) (id : jsval) : async W result :=
  _getItemResourceData self (storeQueryUrl self) id.

(** [getPluginParameters(pluginId, params = null)]. *)
Definition getPluginParameters (self : t) (pluginId : jsval)
    (params : params) : async W result :=
  _getResourceRelatedListData self (storeQueryUrl self) pluginId
                              "parameters" params.

(** [addPlugin(name, dockImage, descriptorFile, publicRepo)]. *)
Definition addPlugin (self : t) (name dockImage : string)
    (descriptorFile : string) (publicRepo : string) : async W result :=
  let data := [("name", Str name); ("dock_image", Str dockImage);
               ("public_repo", Str publicRepo)] in
  resp <- Request_post respond (new_Request self) (UStr (storeUrl self))
            (BodyJson data) (Some ("descriptor_file", descriptorFile)) ;;
  settle (getDataFromResponse resp "item").

(** [descriptors.filter(d => d.name === name)[0].value]. *)
Definition first_value (descriptors : list Descriptor) (name : string)
    : exn + jsval :=
  defined "value"
    (nth_error (filter (fun d => d_name d =? name) descriptors) 0)
    (fun d => inr (d_value d)).

(** The request data object that [modifyPlugin] builds. *)
Definition modifyPlugin_data (item : Item) (publicRepo newOwner : string)
    : exn + object :=
  match (if negb (publicRepo =? "") then inr (Str publicRepo)
         else first_value (item_data item) "public_repo") with
  | inl ex => inl ex
  | inr public_repo =>
      let data := set_prop [] "public_repo" public_repo in
      inr (if negb (newOwner =? "")
           then set_prop data "owner" (Str newOwner)
           else data)
  end.

(** [if (self.contentType === 'application/vnd.collection+json')
    data = { template: Collection.makeTemplate(data) }]. *)
Definition encode (self : t) (data : object) : body :=
  if contentType self =? collection_json
  then BodyTemplate (makeTemplate data)
  else BodyJson data.

(** [modifyPlugin(id, publicRepo = '', newOwner = '')]. *)
Definition modifyPlugin (self : t) (id : jsval)
    (publicRepo newOwner : string) : async W result :=
  let req := new_Request self in
  resp <-
    (coll <- _fetchCollection self (UStr (storeQueryUrl self))
               (PObj [("id", id)]) ;;
     match coll with
     | None => reject (undefined_read "items")
     | Some coll =>
         match coll_items coll with
         | item :: _ =>
             match modifyPlugin_data item publicRepo newOwner with
             | inl ex => reject ex
             | inr data =>
                 Request_put respond req (UStr (item_href item))
                             (encode self data)
             end
         | [] => reject (not_found id)
         end
     end) ;;
  resolve_unguarded (getDataFromResponse resp "item").

(** [setPipelinesUrls()]: [pipelinesUrl] becomes the array of the
    ['pipelines'] links and [pipelinesQueryUrl] its string form followed
    by ['search/']. *)
Definition setPipelinesUrls : async (t * W) unit :=
  self <- this ;;
  coll <- in_world (_fetchCollection self (UStr (storeUrl self)) PNull) ;;
  match coll with
  | None => reject (undefined_read "links")
  | Some coll =>
      let urls := Collection.getLinkRelationUrls coll "pipelines" in
      assign {| storeUrl := storeUrl self;
                storeQueryUrl := storeQueryUrl self;
                pipelinesUrl := UArr urls;
                pipelinesQueryUrl := url_to_string (UArr urls)
                                     ++ "search/";
                auth := auth self;
                timeout := timeout self;
                contentType := contentType self |}
  end.

(** The pattern shared by the pipeline methods: use the cached query URL,
    or set the pipeline URLs first and read it afterwards. *)
Definition with_pipelinesQueryUrl {A}
    (k : t -> string -> async W A) : async (t * W) A :=
  self <- this ;;
  if negb (pipelinesQueryUrl self =? "") then
    in_world (k self (pipelinesQueryUrl self))
  else
    _ <- setPipelinesUrls ;;
    self <- this ;;
    in_world (k self (pipelinesQueryUrl self)).

(** [getPipelines(searchParams = null)]. *)
Definition getPipelines (searchParams : params) : async (t * W) result :=
  self <- this ;;
  if params_truthy searchParams then
    with_pipelinesQueryUrl (fun self u =>
      _getListResourceData self (UStr u) searchParams)
  else if url_truthy (pipelinesUrl self) then
    in_world (_getListResourceData self (pipelinesUrl self) PNull)
  else
    _ <- setPipelinesUrls ;;
    self <- this ;;
    in_world (_getListResourceData self (pipelinesUrl self) searchParams).

(** [getPipeline(id)]. *)
Definition getPipeline (id : jsval) : async (t * W) result :=
  with_pipelinesQueryUrl (fun self u => _getItemResourceData self u id).

(** [getPipelineDefaultParameters(pipelineId, params = null)]. *)
Definition getPipelineDefaultParameters (pipelineId : jsval)
    (params : params) : async (t * W) result :=
  with_pipelinesQueryUrl (fun self u =>
    _getResourceRelatedListData self u pipelineId "default_parameters"
                                params).

(** [getPipelinePipings(pipelineId, params = null)]. *)
Definition getPipelinePipings (pipelineId : jsval) (params : params)
    : async (t * W) result :=
  with_pipelinesQueryUrl (fun self u =>
    _getResourceRelatedListData self u pipelineId "plugin_pipings"
                                params).

(** [getPipelinePlugins(pipelineId, params = null)]. *)
Definition getPipelinePlugins (pipelineId : jsval) (params : params)
    : async (t * W) result :=
  with_pipelinesQueryUrl (fun self u =>
    _getResourceRelatedListData self u pipelineId "plugins" params).

(** [modifyPipeline(id, data)]. *)
Definition modifyPipeline (id : jsval) (data : object)
    : async (t * W) result :=
  self0 <- this ;;
  let req := new_Request self0 in
  resp <-
    (_ <- (if pipelinesQueryUrl self0 =? "" then setPipelinesUrls
           else resolve tt) ;;
     self <- this ;;
     coll <- in_world (_fetchCollection self
                         (UStr (pipelinesQueryUrl self))
                         (PObj [("id", id)])) ;;
     match coll with
     | None => reject (undefined_read "items")
     | Some coll =>
         match coll_items coll with
         | item :: _ =>
             in_world (Request_put respond req (UStr (item_href item))
                                   (encode self data))
         | [] => reject (not_found id)
         end
     end) ;;
  resolve_unguarded (getDataFromResponse resp "item").

(** [getUser()]. *)
Definition getUser (self : t) : async W result :=
  let req := new_Request self in
  resp <-
    (resp <- Request_get respond req (UStr (storeUrl self)) PNull ;;
     match p_collection (resp_data resp) with
     | None => reject (undefined_read "links")
     | Some coll =>
         let userUrls := Collection.getLinkRelationUrls coll "user" in
         Request_get respond req (first_url userUrls) PNull
     end) ;;
  resolve_unguarded (getDataFromResponse resp "item").

(** [updateUser(userInfoObj)]. *)
Definition updateUser (self : t) (userInfoObj : object)
    : async W result :=
  let req := new_Request self in
  let userData := BodyTemplate {| template_data :=
    [ {| d_name := "email"; d_value := get_prop userInfoObj "email" |};
      {| d_name := "password";
         d_value := get_prop userInfoObj "password" |} ] |} in
  resp <-
    (resp <- Request_get respond req (UStr (storeUrl self)) PNull ;;
     match p_collection (resp_data resp) with
     | None => reject (undefined_read "links")
     | Some coll =>
         let userUrls := Collection.getLinkRelationUrls coll "user" in
         Request_put respond req (first_url userUrls) userData
     end) ;;
  resolve_unguarded (getDataFromResponse resp "item").

(** [static createUser(usersUrl, username, password, email,
    timeout = 30000)]. *)
Definition createUser (usersUrl username password email : string)
    (timeout : Z) : async W result :=
  let req := {| req_auth := None;
                req_contentType := collection_json;
                req_timeout := timeout |} in
  let userData := BodyTemplate {| template_data :=
    [ {| d_name := "username"; d_value := Str username |};
      {| d_name := "password"; d_value := Str password |};
      {| d_name := "email"; d_value := Str email |} ] |} in
  resp <- Request_post respond req (UStr usersUrl) userData None ;;
  settle (getDataFromResponse resp "item").

(** [static getAuthToken(authUrl, username, password,
    timeout = 30000)]. *)
Definition getAuthToken (authUrl username password : string)
    (timeout : Z) : async W jsval :=
  let req := {| req_auth := None;
                req_contentType := "application/json";
                req_timeout := timeout |} in
  let authData := BodyJson [("username", Str username);
                            ("password", Str password)] in
  resp <- Request_post respond req (UStr authUrl) authData None ;;
  resolve (get_prop (p_fields (resp_data resp)) "token").

(** [_removeItemResource(resQueryUrl, id)]: the lookup and the deletion
    are inside the [try] block; [resolve()] has no argument. *)
Definition _removeItemResource (self : t) (resQueryUrl : string)
    (id : jsval) : async W unit :=
  let req := new_Request self in
  let searchParams := PObj [("id", id)] in
  resp <- Request_get respond req (UStr resQueryUrl) searchParams ;;
  match p_collection (resp_data resp) with
  | None => reject (undefined_read "items")
  | Some coll =>
      match coll_items coll with
      | item :: _ =>
          _ <- Request_delete respond req (UStr (item_href item)) ;;
          resolve tt
      | [] => reject (not_found id)
      end
  end.

(** [removePlugin(id)]. *)
Definition removePlugin (self : t) (id : jsval) : async W unit :=
  _removeItemResource self (storeQueryUrl self) id.

(** [removePipeline(id)]. *)
Definition removePipeline (id : jsval) : async (t * W) unit :=
  with_pipelinesQueryUrl (fun self u => _removeItemResource self u id).

End Methods.

End StoreClient.

(** ** Resource objects ([resource.js]) *)

Module Resource.

(** Modelled from the spec: the state of a resource object of
    [resource.js], which is not part of the sources: its URL, its
    credentials, the last-fetched collection ([None] until fetched) and,
    for a list resource, the search parameters last used and the two page
    flags. *)
Record t := {
  url : jsurl;
  auth : Auth;
  collection : option Collection;
  searchParams : params;
  hasNextPage : bool;
  hasPreviousPage : bool }.

(** Modelled from the spec: [new ResClass(url, auth)] of [resource.js]; a
    new resource object has a URL and credentials and no collection. *)
Definition new (u : jsurl) (auth : Auth) : t :=
  {| url := u; auth := auth; collection := None; searchParams := PNull;
     hasNextPage := false; hasPreviousPage := false |}.

(** Modelled from the spec: the decoding step of the codec; a body without
    the [collection] wrapper is a [ProtocolError]. *)
Definition decode (resp : response) : exn + Collection :=
  match p_collection (resp_data resp) with
  | Some coll => inr coll
  | None => inl {| ex_class := ProtocolError;
                   ex_message := "Missing collection wrapper";
                   ex_request := None; ex_response := Some resp |}
  end.

(** Modelled from the spec: a list resource takes the response collection
    as its new state, records the search parameters and recomputes the
    page flags from the [next] and [previous] links. *)
Definition populated_list (self : t) (coll : Collection)
    (searchParams : params) : t :=
  {| url := url self; auth := auth self; collection := Some coll;
     searchParams := searchParams;
     hasNextPage :=
       StoreClient.nonempty (Collection.getLinkRelationUrls coll "next");
     hasPreviousPage :=
       StoreClient.nonempty
         (Collection.getLinkRelationUrls coll "previous") |}.

(** Modelled from the spec: an item resource takes the response collection
    as its new state. *)
Definition populated_item (self : t) (coll : Collection) : t :=
  {| url := url self; auth := auth self; collection := Some coll;
     searchParams := searchParams self;
     hasNextPage := hasNextPage self;
     hasPreviousPage := hasPreviousPage self |}.

(** Modelled from the spec: [item.data] of an item resource, the
    descriptors of its one item as a plain object. *)
Definition data (self : t) : object :=
  match collection self with
  | Some coll =>
      match coll_items coll with
      | item :: _ => Collection.getItemDescriptors item
      | [] => []
      end
  | None => []
  end.

(** Modelled from the spec: [getItems()] of a list resource; each child
    wraps the parent's URL and credentials and its own item, and no
    request is made. *)
Definition getItems (self : t) : list t :=
  match collection self with
  | Some coll =>
      map (fun item =>
             {| url := url self; auth := auth self;
                collection := Some {| coll_version := coll_version coll;
                                      coll_href := coll_href coll;
                                      coll_links := coll_links coll;
                                      coll_items := [item];
                                      coll_template := coll_template coll;
                                      coll_error := coll_error coll |};
                searchParams := PNull;
                hasNextPage := false; hasPreviousPage := false |})
          (coll_items coll)
  | None => []
  end.

(** Modelled from the spec: [getItem(id)] of a list resource; it filters
    [getItems()] by the field named [id] and fails with [NotFoundError]
    when no item matches. *)
Definition getItem (self : t) (id : jsval) : exn + t :=
  match filter (fun item => strict_eqb (get_prop (data item) "id") id)
               (getItems self) with
  | item :: _ => inr item
  | [] => inl {| ex_class := NotFoundError;
                 ex_message := "No item with id: " ++ to_string id;
                 ex_request := None; ex_response := None |}
  end.

Section Operations.

Variable S : Type.
Variable respond : request -> S -> (failure + response) * S.
Variable makeTemplate : object -> Template.

Let W := world S.

(** Modelled from the spec: the wire request of a resource object; it
    goes to the object's own URL with the object's credentials under the
    Collection+JSON content type. *)
Definition wire (self : t) (m : method) (searchParams : params)
    (b : body) (file : option upload) (timeout : Z) : request :=
  {| rq_method := m; rq_url := url self; rq_params := searchParams;
     rq_body := b; rq_file := file; rq_auth := Some (auth self);
     rq_contentType := StoreClient.collection_json;
     rq_timeout := timeout |}.

(** Modelled from the spec: [get(searchParams, timeout)] of a list
    resource. It issues a GET against the resource's own URL with the
    search parameters, fails with the transport's [RequestException],
    and on success replaces the collection; it resolves to the
    object. *)
Definition ListResource_get (searchParams : params) (timeout : Z)
    : async (t * W) t :=
  self <- this ;;
  resp <- in_world (send respond
            (wire self GET searchParams NoBody None timeout)) ;;
  coll <- settle (decode resp) ;;
  let self' := populated_list self coll searchParams in
  _ <- assign self' ;;
  resolve self'.

(** Modelled from the spec: [get(timeout)] of an item resource. *)
Definition ItemResource_get (timeout : Z) : async (t * W) t :=
  self <- this ;;
  resp <- in_world (send respond
            (wire self GET PNull NoBody None timeout)) ;;
  coll <- settle (decode resp) ;;
  let self' := populated_item self coll in
  _ <- assign self' ;;
  resolve self'.

(** Modelled from the spec: [post(data, fileBlob, timeout)] of a list
    resource. It builds a template from [data], or passes [data] as it
    is next to a file, submits it to the resource's own URL and takes
    the response collection as the new state. *)
Definition ListResource_post (data : object) (file : option upload)
    (timeout : Z) : async (t * W) t :=
  self <- this ;;
  let b := match file with
           | Some _ => BodyJson data
           | None => BodyTemplate (makeTemplate data)
           end in
  resp <- in_world (send respond (wire self POST PNull b file timeout)) ;;
  coll <- settle (decode resp) ;;
  let self' := populated_list self coll (searchParams self) in
  _ <- assign self' ;;
  resolve self'.

(** Modelled from the spec: [put(data, timeout)] of an item resource,
    with the same templating, submitted to the item's own URL. *)
Definition ItemResource_put (data : object) (timeout : Z)
    : async (t * W) t :=
  self <- this ;;
  resp <- in_world (send respond
            (wire self PUT PNull (BodyTemplate (makeTemplate data))
                  None timeout)) ;;
  coll <- settle (decode resp) ;;
  let self' := populated_item self coll in
  _ <- assign self' ;;
  resolve self'.

(** Modelled from the spec: [delete(timeout)] of an item resource;
    success yields no resource and the local object stays as it is. *)
Definition ItemResource_delete (timeout : Z) : async (t * W) unit :=
  self <- this ;;
  _ <- in_world (send respond
         (wire self DELETE PNull NoBody None timeout)) ;;
  resolve tt.

(** Modelled from the spec: the network operations of a resource object,
    as one type, with the wire request each of them submits. *)
Inductive operation : Type :=
| Get (searchParams : params) (timeout : Z)
| GetItem (timeout : Z)
| Post (data : object) (file : option upload) (timeout : Z)
| Put (data : object) (timeout : Z)
| Delete (timeout : Z).

Definition operation_request (self : t) (op : operation) : request :=
  match op with
  | Get searchParams timeout =>
      wire self GET searchParams NoBody None timeout
  | GetItem timeout => wire self GET PNull NoBody None timeout
  | Post data (Some file) timeout =>
      wire self POST PNull (BodyJson data) (Some file) timeout
  | Post data None timeout =>
      wire self POST PNull (BodyTemplate (makeTemplate data)) None timeout
  | Put data timeout =>
      wire self PUT PNull (BodyTemplate (makeTemplate data)) None timeout
  | Delete timeout => wire self DELETE PNull NoBody None timeout
  end.

(** Modelled from the spec: the operation run on the object; it resolves
    to the object, or to nothing for a deletion. *)
Definition perform (op : operation) : async (t * W) (option t) :=
  match op with
  | Get searchParams timeout =>
      self <- ListResource_get searchParams timeout ;; resolve (Some self)
  | GetItem timeout =>
      self <- ItemResource_get timeout ;; resolve (Some self)
  | Post data file timeout =>
      self <- ListResource_post data file timeout ;; resolve (Some self)
  | Put data timeout =>
      self <- ItemResource_put data timeout ;; resolve (Some self)
  | Delete timeout =>
      _ <- ItemResource_delete timeout ;; resolve None
  end.

End Operations.

End Resource.

(** ** The ChRIS API client ([js/chrisAPI/src/client.js]) *)

Module Client.

Record t := {
  url : string;
  auth : Auth;
  feedsUrl : jsurl;
  filesUrl : jsurl;
  pluginsUrl : jsurl;
  pluginInstancesUrl : jsurl;
  pipelinesUrl : jsurl;
  pipelineInstancesUrl : jsurl;
  tagsUrl : jsurl;
  uploadedFilesUrl : jsurl;
  userUrl : jsurl }.

(** [constructor(url, auth)]: [None] is a missing [auth]; the [throw]
    happens in the constructor itself. *)
Definition constructor (url : string) (auth : option Auth) : exn + t :=
  match auth with
  | None => inl (new_RequestException "Authentication object is required")
  | Some auth =>
      inr {| url := url; auth := auth;
             feedsUrl := UStr url;
             filesUrl := UStr "";
             pluginsUrl := UStr "";
             pluginInstancesUrl := UStr "";
             pipelinesUrl := UStr "";
             pipelineInstancesUrl := UStr "";
             tagsUrl := UStr "";
             uploadedFilesUrl := UStr "";
             userUrl := UStr "" |}
  end.

(** The eight URL fields of the high level resources that [getFeeds]
    fills in, in the order of its assignments. *)
Inductive top_url : Type :=
| FilesUrl | PluginsUrl | PluginInstancesUrl | PipelinesUrl
| PipelineInstancesUrl | TagsUrl | UploadedFilesUrl | UserUrl.

Definition top_urls : list top_url :=
  [FilesUrl; PluginsUrl; PluginInstancesUrl; PipelinesUrl;
   PipelineInstancesUrl; TagsUrl; UploadedFilesUrl; UserUrl].

(** The link relation each field is read from. *)
Definition relation (f : top_url) : string :=
  match f with
  | FilesUrl => "files"
  | PluginsUrl => "plugins"
  | PluginInstancesUrl => "plugin_instances"
  | PipelinesUrl => "pipelines"
  | PipelineInstancesUrl => "pipeline_instances"
  | TagsUrl => "tags"
  | UploadedFilesUrl => "uploadedfiles"
  | UserUrl => "user"
  end.

Definition get_url (f : top_url) (self : t) : jsurl :=
  match f with
  | FilesUrl => filesUrl self
  | PluginsUrl => pluginsUrl self
  | PluginInstancesUrl => pluginInstancesUrl self
  | PipelinesUrl => pipelinesUrl self
  | PipelineInstancesUrl => pipelineInstancesUrl self
  | TagsUrl => tagsUrl self
  | UploadedFilesUrl => uploadedFilesUrl self
  | UserUrl => userUrl self
  end.

Definition top_url_eqb (f g : top_url) : bool :=
  match f, g with
  | FilesUrl, FilesUrl | PluginsUrl, PluginsUrl
  | PluginInstancesUrl, PluginInstancesUrl | PipelinesUrl, PipelinesUrl
  | PipelineInstancesUrl, PipelineInstancesUrl | TagsUrl, TagsUrl
  | UploadedFilesUrl, UploadedFilesUrl | UserUrl, UserUrl => true
  | _, _ => false
  end.

(** [this.<f> = u]. *)
Definition set_url (f : top_url) (u : jsurl) (self : t) : t :=
  let pick g := if top_url_eqb f g then u else get_url g self in
  {| url := url self; auth := auth self; feedsUrl := feedsUrl self;
     filesUrl := pick FilesUrl;
     pluginsUrl := pick PluginsUrl;
     pluginInstancesUrl := pick PluginInstancesUrl;
     pipelinesUrl := pick PipelinesUrl;
     pipelineInstancesUrl := pick PipelineInstancesUrl;
     tagsUrl := pick TagsUrl;
     uploadedFilesUrl := pick UploadedFilesUrl;
     userUrl := pick UserUrl |}.

(** The assignments [this.<f> = this.<f> || getUrl(coll, <rel>)] of
    [getFeeds], one after the other. [getUrl] is only called for a falsy
    field; a throw leaves the assignments made so far in place. *)
Fixpoint discover (fs : list top_url) (coll : option Collection) (self : t)
    : t * option exn :=
  match fs with
  | [] => (self, None)
  | f :: fs' =>
      if url_truthy (get_url f self) then
        discover fs' coll (set_url f (get_url f self) self)
      else
        match coll with
        | None => (self, Some (undefined_read "links"))
        | Some c =>
            discover fs' coll
              (set_url f (UArr (Collection.getLinkRelationUrls
                                  c (relation f))) self)
        end
  end.

(** The resource classes that the client instantiates. [User] is the one
    item resource among them. *)
Inductive ResClass : Type :=
| FeedList | AllFeedFileList | PluginList | AllPluginInstanceList
| PluginInstanceList | AllPipelineInstanceList | PipelineInstanceList
| PipelineList | TagList | UploadedFileList | User.

Definition is_list (c : ResClass) : bool :=
  match c with
  | User => false
  | _ => true
  end.

(** A first positional argument read as a timeout. No method of the client
    gets here: [getUser], the one caller with an item resource, passes no
    search parameters. *)
Definition as_timeout (p : params) : Z :=
  match p with
  | PNum n => n
  | _ => 0
  end.

Section Methods.

Variable S : Type.
Variable respond : request -> S -> (failure + response) * S.
Variable makeTemplate : object -> Template.

Let W := world S.

(** A method call on a resource object held in a local variable. *)
Definition on_object {A} (res : Resource.t)
    (m : async (Resource.t * W) A) : async W A :=
  fun w => let (r, s) := m (res, w) in (r, snd s).

(** [res.get(a, b)] and [res.get(a)] on an instance of [cls]: a list
    resource reads its first argument as the search parameters (the
    timeout then defaults to 30000 when there is no second argument),
    an item resource reads it as the timeout. *)
Definition get2 (cls : ResClass) (res : Resource.t) (a : params) (b : Z)
    : async W Resource.t :=
  if is_list cls
  then on_object res (Resource.ListResource_get respond a b)
  else on_object res (Resource.ItemResource_get respond (as_timeout a)).

Definition get1 (cls : ResClass) (res : Resource.t) (a : Z)
    : async W Resource.t :=
  if is_list cls
  then on_object res (Resource.ListResource_get respond (PNum a) 30000)
  else on_object res (Resource.ItemResource_get respond a).

(** [getFeeds(searchParams = null, timeout = 30000)]. *)
Definition getFeeds (searchParams : params) (timeout : Z)
    : async (t * W) Resource.t :=
  self <- this ;;
  let feedList := Resource.new (feedsUrl self) (auth self) in
  feedList <- in_world (on_object feedList
                (Resource.ListResource_get respond searchParams
                                           timeout)) ;;
  self <- this ;;
  let coll := Resource.collection feedList in
  let (self', thrown) := discover top_urls coll self in
  _ <- assign self' ;;
  match thrown with
  | Some ex => reject ex
  | None => resolve feedList
  end.

(** [setUrls(timeout = 30000)] is [this.getFeeds(timeout)]: the timeout
    goes into the position of the search parameters. *)
Definition setUrls (timeout : Z) : async (t * W) Resource.t :=
  getFeeds (PNum timeout) 30000.

(** [_fetchRes(resUrl, ResClass, searchParams = null,
    timeout = 30000)]. [getRes] closes over the argument [resUrl]. *)
Definition _fetchRes (resUrl : jsurl) (cls : ResClass)
    (searchParams : params) (timeout : Z) : async (t * W) Resource.t :=
  let getRes : async (t * W) Resource.t :=
    self <- this ;;
    let res := Resource.new resUrl (auth self) in
    in_world (if params_truthy searchParams
              then get2 cls res searchParams timeout
              else get1 cls res timeout) in
  if url_truthy resUrl then getRes
  else
    _ <- setUrls 30000 ;;
    getRes.

(** [getFeed(id, timeout = 30000)]. *)
Definition getFeed (id : jsval) (timeout : Z)
    : async (t * W) Resource.t :=
  listRes <- getFeeds (PObj [("id", id)]) timeout ;;
  settle (Resource.getItem listRes id).

(** [getFiles(searchParams = null, timeout = 30000)]. *)
Definition getFiles (searchParams : params) (timeout : Z)
    : async (t * W) Resource.t :=
  self <- this ;;
  _fetchRes (filesUrl self) AllFeedFileList searchParams timeout.

(** [getFile(id, timeout = 30000)]. *)
Definition getFile (id : jsval) (timeout : Z)
    : async (t * W) Resource.t :=
  listRes <- getFiles (PObj [("id", id)]) timeout ;;
  settle (Resource.getItem listRes id).

(** [getPlugins(searchParams = null, timeout = 30000)]. *)
Definition getPlugins (searchParams : params) (timeout : Z)
    : async (t * W) Resource.t :=
  self <- this ;;
  _fetchRes (pluginsUrl self) PluginList searchParams timeout.

(** [getPlugin(id, timeout = 30000)]. *)
Definition getPlugin (id : jsval) (timeout : Z)
    : async (t * W) Resource.t :=
  listRes <- getPlugins (PObj [("id", id)]) timeout ;;
  settle (Resource.getItem listRes id).

(** [getPluginInstances(searchParams = null, timeout = 30000)]. *)
Definition getPluginInstances (searchParams : params) (timeout : Z)
    : async (t * W) Resource.t :=
  self <- this ;;
  _fetchRes (pluginInstancesUrl self) AllPluginInstanceList
            searchParams timeout.

(** [getPluginInstance(id, timeout = 30000)]. *)
Definition getPluginInstance (id : jsval) (timeout : Z)
    : async (t * W) Resource.t :=
  listRes <- getPluginInstances (PObj [("id", id)]) timeout ;;
  settle (Resource.getItem listRes id).

(** The callback shared by [createPluginInstance] and
    [createPipelineInstance]: follow the ['instances'] relation of
    [res.collection.items[0]] and post [data] to its first URL. *)
Definition post_instance (self : t) (res : Resource.t) (data : object)
    (timeout : Z) : async W Resource.t :=
  match defined "items" (Resource.collection res) (fun coll =>
          defined "links" (nth_error (coll_items coll) 0) (fun item =>
            inr (Collection.getLinkRelationUrls item "instances")))
  with
  | inl ex => reject ex
  | inr instancesUrl =>
      let instList := Resource.new (first_url instancesUrl)
                                   (auth self) in
      on_object instList
        (Resource.ListResource_post respond makeTemplate data None
                                    timeout)
  end.

(** [createPluginInstance(pluginId, data, timeout = 30000)]; it resolves
    to [getItems()[0]]. *)
Definition createPluginInstance (pluginId : jsval) (data : object)
    (timeout : Z) : async (t * W) (option Resource.t) :=
  plg <- getPlugin pluginId timeout ;;
  self <- this ;;
  plgInstList <- in_world (post_instance self plg data timeout) ;;
  resolve (nth_error (Resource.getItems plgInstList) 0).

(** [getPipelines(searchParams = null, timeout = 30000)]. *)
Definition getPipelines (searchParams : params) (timeout : Z)
    : async (t * W) Resource.t :=
  self <- this ;;
  _fetchRes (pipelinesUrl self) PipelineList searchParams timeout.

(** [getPipeline(id, timeout = 30000)]. *)
Definition getPipeline (id : jsval) (timeout : Z)
    : async (t * W) Resource.t :=
  listRes <- getPipelines (PObj [("id", id)]) timeout ;;
  settle (Resource.getItem listRes id).

(** [getPipelineInstances(searchParams = null, timeout = 30000)]. *)
Definition getPipelineInstances (searchParams : params) (timeout : Z)
    : async (t * W) Resource.t :=
  self <- this ;;
  _fetchRes (pipelineInstancesUrl self) AllPipelineInstanceList
            searchParams timeout.

(** [getPipelineInstance(id, timeout = 30000)]. *)
Definition getPipelineInstance (id : jsval) (timeout : Z)
    : async (t * W) Resource.t :=
  listRes <- getPipelineInstances (PObj [("id", id)]) timeout ;;
  settle (Resource.getItem listRes id).

(** [createPipelineInstance(pipelineId, data, timeout = 30000)]. *)
Definition createPipelineInstance (pipelineId : jsval) (data : object)
    (timeout : Z) : async (t * W) (option Resource.t) :=
  pipeline <- getPipeline pipelineId timeout ;;
  self <- this ;;
  pipInstList <- in_world (post_instance self pipeline data timeout) ;;
  resolve (nth_error (Resource.getItems pipInstList) 0).

(** [getTags(searchParams = null, timeout = 30000)]. *)
Definition getTags (searchParams : params) (timeout : Z)
    : async (t * W) Resource.t :=
  self <- this ;;
  _fetchRes (tagsUrl self) TagList searchParams timeout.

(** [getTag(id, timeout = 30000)]. *)
Definition getTag (id : jsval) (timeout : Z)
    : async (t * W) Resource.t :=
  listRes <- getTags (PObj [("id", id)]) timeout ;;
  settle (Resource.getItem listRes id).

(** [getUploadedFiles(searchParams = null, timeout = 30000)]. *)
Definition getUploadedFiles (searchParams : params) (timeout : Z)
    : async (t * W) Resource.t :=
  self <- this ;;
  _fetchRes (uploadedFilesUrl self) UploadedFileList searchParams
            timeout.

(** [getUploadedFile(id, timeout = 30000)]. *)
Definition getUploadedFile (id : jsval) (timeout : Z)
    : async (t * W) Resource.t :=
  listRes <- getUploadedFiles (PObj [("id", id)]) timeout ;;
  settle (Resource.getItem listRes id).

(** [getUser(timeout = 30000)]. *)
Definition getUser (timeout : Z) : async (t * W) Resource.t :=
  self <- this ;;
  _fetchRes (userUrl self) User PNull timeout.

(** [static createUser(usersUrl, username, password, email,
    timeout = 30000)]. *)
Definition createUser (usersUrl username password email : string)
    (timeout : Z) : async W Resource.t :=
  let req := {| req_auth := None;
                req_contentType := StoreClient.collection_json;
                req_timeout := timeout |} in
  let userData := BodyTemplate {| template_data :=
    [ {| d_name := "username"; d_value := Str username |};
      {| d_name := "password"; d_value := Str password |};
      {| d_name := "email"; d_value := Str email |} ] |} in
  resp <- Request_post respond req (UStr usersUrl) userData None ;;
  settle (defined "items" (p_collection (resp_data resp)) (fun coll =>
    defined "href" (nth_error (coll_items coll) 0) (fun item =>
      let auth := BasicAuth username password in
      let user := Resource.new (UStr (item_href item)) auth in
      inr (Resource.populated_item user coll)))).

(** [static getAuthToken(authUrl, username, password,
    timeout = 30000)]. *)
Definition getAuthToken (authUrl username password : string)
    (timeout : Z) : async W jsval :=
  let req := {| req_auth := None;
                req_contentType := "application/json";
                req_timeout := timeout |} in
  let authData := BodyJson [("username", Str username);
                            ("password", Str password)] in
  resp <- Request_post respond req (UStr authUrl) authData None ;;
  resolve (get_prop (p_fields (resp_data resp)) "token").

(** The getter that reads each of the eight URL fields. *)
Definition getter (f : top_url) (searchParams : params) (timeout : Z)
    : async (t * W) Resource.t :=
  match f with
  | FilesUrl => getFiles searchParams timeout
  | PluginsUrl => getPlugins searchParams timeout
  | PluginInstancesUrl => getPluginInstances searchParams timeout
  | PipelinesUrl => getPipelines searchParams timeout
  | PipelineInstancesUrl => getPipelineInstances searchParams timeout
  | TagsUrl => getTags searchParams timeout
  | UploadedFilesUrl => getUploadedFiles searchParams timeout
  | UserUrl => getUser timeout
  end.

(** The eight lookups by id, each with the list getter it calls. *)
Inductive lookup : Type :=
| GetFeed | GetFile | GetPlugin | GetPluginInstance | GetPipeline
| GetPipelineInstance | GetTag | GetUploadedFile.

Definition lookup_list (l : lookup)
    : params -> Z -> async (t * W) Resource.t :=
  match l with
  | GetFeed => getFeeds
  | GetFile => getFiles
  | GetPlugin => getPlugins
  | GetPluginInstance => getPluginInstances
  | GetPipeline => getPipelines
  | GetPipelineInstance => getPipelineInstances
  | GetTag => getTags
  | GetUploadedFile => getUploadedFiles
  end.

Definition lookup_item (l : lookup)
    : jsval -> Z -> async (t * W) Resource.t :=
  match l with
  | GetFeed => getFeed
  | GetFile => getFile
  | GetPlugin => getPlugin
  | GetPluginInstance => getPluginInstance
  | GetPipeline => getPipeline
  | GetPipelineInstance => getPipelineInstance
  | GetTag => getTag
  | GetUploadedFile => getUploadedFile
  end.

(** The pattern shared by [createPipeline], [createTag] and [uploadFile]:
    [createRes] reads the URL field [f] when it runs, posts to a new list
    resource at that URL and resolves to [getItems()[0]]; it runs at once
    when the field is populated and after [setUrls()] otherwise. *)
Definition create_at (f : top_url) (data : object) (file : option upload)
    (timeout : Z) : async (t * W) (option Resource.t) :=
  let createRes : async (t * W) (option Resource.t) :=
    self <- this ;;
    let res := Resource.new (get_url f self) (auth self) in
    res <- in_world (on_object res
             (Resource.ListResource_post respond makeTemplate data file
                                         timeout)) ;;
    resolve (nth_error (Resource.getItems res) 0) in
  self <- this ;;
  if url_truthy (get_url f self) then createRes
  else
    _ <- setUrls 30000 ;;
    createRes.

(** [createPipeline(data, timeout = 30000)]. *)
Definition createPipeline (data : object) (timeout : Z)
    : async (t * W) (option Resource.t) :=
  create_at PipelinesUrl data None timeout.

(** [createTag(data, timeout = 30000)]. *)
Definition createTag (data : object) (timeout : Z)
    : async (t * W) (option Resource.t) :=
  create_at TagsUrl data None timeout.

(** [uploadFile(data, uploadFileObj, timeout = 30000)]. *)
Definition uploadFile (data : object) (uploadFileObj : option upload)
    (timeout : Z) : async (t * W) (option Resource.t) :=
  create_at UploadedFilesUrl data uploadFileObj timeout.

End Methods.

End Client.

(** ** The wire requests that the methods build

    Named here so that the properties below can refer to them. *)

(** The request of [getAuthToken]. *)
Definition token_request (authUrl username password : string)
    (timeout : Z) : request :=
  {| rq_method := POST; rq_url := UStr authUrl; rq_params := PNull;
     rq_body := BodyJson [("username", Str username);
                          ("password", Str password)];
     rq_file := None; rq_auth := None;
     rq_contentType := "application/json"; rq_timeout := timeout |}.

(** The request of [createUser]. *)
Definition account_request (usersUrl username password email : string)
    (timeout : Z) : request :=
  {| rq_method := POST; rq_url := UStr usersUrl; rq_params := PNull;
     rq_body := BodyTemplate {| template_data :=
       [ {| d_name := "username"; d_value := Str username |};
         {| d_name := "password"; d_value := Str password |};
         {| d_name := "email"; d_value := Str email |} ] |};
     rq_file := None; rq_auth := None;
     rq_contentType := "application/vnd.collection+json";
     rq_timeout := timeout |}.

(** The requests of a store client: its credentials, content type and
    timeout go into each of them. *)
Definition store_get (self : StoreClient.t) (u : jsurl)
    (searchParams : params) : request :=
  {| rq_method := GET; rq_url := u; rq_params := searchParams;
     rq_body := NoBody; rq_file := None;
     rq_auth := StoreClient.auth self;
     rq_contentType := StoreClient.contentType self;
     rq_timeout := StoreClient.timeout self |}.

Definition store_put (self : StoreClient.t) (u : jsurl) (b : body)
    : request :=
  {| rq_method := PUT; rq_url := u; rq_params := PNull;
     rq_body := b; rq_file := None;
     rq_auth := StoreClient.auth self;
     rq_contentType := StoreClient.contentType self;
     rq_timeout := StoreClient.timeout self |}.

Definition store_post (self : StoreClient.t) (u : jsurl) (b : body)
    (file : option upload) : request :=
  {| rq_method := POST; rq_url := u; rq_params := PNull;
     rq_body := b; rq_file := file;
     rq_auth := StoreClient.auth self;
     rq_contentType := StoreClient.contentType self;
     rq_timeout := StoreClient.timeout self |}.

(** The world after the requests [rs] were sent and the service moved to
    state [s]. *)
Definition logged {S} (w : world S) (s : S) (rs : list request) : world S :=
  {| server := s; sent := sent w ++ rs |}.

(** The promise of a method that ends in
    [getDataFromCollection(resp.data.collection, 'item')] on the response
    [resp]: inside a [then] callback a throw rejects it, after the [try]
    block of a task generator a throw leaves it unsettled. *)
Definition item_result (in_then : bool) (resp : response)
    : outcome StoreClient.result :=
  match StoreClient.getDataFromResponse resp "item" with
  | inr r => Resolved r
  | inl ex => if in_then then Rejected ex else Unsettled ex
  end.

(** What the pipeline methods of the store client do before their own
    requests: nothing when [pipelinesQueryUrl] is cached, [setPipelinesUrls]
    otherwise. *)
Definition ensure_pipelines_urls {S}
    (respond : request -> S -> (failure + response) * S)
    : async (StoreClient.t * world S) unit :=
  fun s =>
    if StoreClient.pipelinesQueryUrl (fst s) =? ""
    then StoreClient.setPipelinesUrls respond s
    else (Resolved tt, s).

(** The requests of a resource object. *)
Definition resource_request (u : jsurl) (auth : Auth) (m : method)
    (searchParams : params) (b : body) (file : option upload) (timeout : Z)
    : request :=
  {| rq_method := m; rq_url := u; rq_params := searchParams;
     rq_body := b; rq_file := file; rq_auth := Some auth;
     rq_contentType := "application/vnd.collection+json";
     rq_timeout := timeout |}.

(** A client of the ChRIS service that has discovered nothing yet. *)
Definition fresh_client (url : string) (auth : Auth) : Client.t :=
  {| Client.url := url; Client.auth := auth;
     Client.feedsUrl := UStr url;
     Client.filesUrl := UStr "";
     Client.pluginsUrl := UStr "";
     Client.pluginInstancesUrl := UStr "";
     Client.pipelinesUrl := UStr "";
     Client.pipelineInstancesUrl := UStr "";
     Client.tagsUrl := UStr "";
     Client.uploadedFilesUrl := UStr "";
     Client.userUrl := UStr "" |}.

Definition store_delete (self : StoreClient.t) (u : jsurl) : request :=
  {| rq_method := DELETE; rq_url := u; rq_params := PNull;
     rq_body := NoBody; rq_file := None;
     rq_auth := StoreClient.auth self;
     rq_contentType := StoreClient.contentType self;
     rq_timeout := StoreClient.timeout self |}.

(** The exception that a promise rejects with when the transport fails with
    [f] on the request [r]. *)
Definition transport_error (f : failure) (r : request) : exn :=
  {| ex_class := RequestException; ex_message := f_message f;
     ex_request := Some r; ex_response := f_response f |}.

(** Two states of a store client that differ at most in the pipeline
    URLs. *)
Definition same_settings (a b : StoreClient.t) : Prop :=
  StoreClient.storeUrl a = StoreClient.storeUrl b /\
  StoreClient.storeQueryUrl a = StoreClient.storeQueryUrl b /\
  StoreClient.auth a = StoreClient.auth b /\
  StoreClient.timeout a = StoreClient.timeout b /\
  StoreClient.contentType a = StoreClient.contentType b.

(** A method seen through its effect only: the value it resolves to is
    dropped. *)
Definition forget {St A} (m : async St A) : async St unit :=
  fun s =>
    let (o, s') := m s in
    (match o with
     | Resolved _ => Resolved tt
     | Rejected e => Rejected e
     | Unsettled e => Unsettled e
     end, s').

(** [m] run on an object that satisfies [Q] leaves it related by [P] to
    what it was. *)
Definition keeps_if {O W A} (Q : O -> Prop) (P : O -> O -> Prop)
    (m : async (O * W) A) : Prop :=
  forall st, Q (fst st) -> P (fst st) (fst (snd (m st))).

(** The methods of the store client that work on pipelines. *)
Inductive pipeline_call : Type :=
| GetPipelines (searchParams : params)
| GetPipeline (id : jsval)
| GetPipelineDefaultParameters (pipelineId : jsval) (params : params)
| GetPipelinePipings (pipelineId : jsval) (params : params)
| GetPipelinePlugins (pipelineId : jsval) (params : params)
| ModifyPipeline (id : jsval) (data : object)
| RemovePipeline (id : jsval).

Definition pipeline_method {S}
    (respond : request -> S -> (failure + response) * S)
    (makeTemplate : object -> Template) (c : pipeline_call)
    : async (StoreClient.t * world S) unit :=
  match c with
  | GetPipelines searchParams =>
      forget (StoreClient.getPipelines respond searchParams)
  | GetPipeline id => forget (StoreClient.getPipeline respond id)
  | GetPipelineDefaultParameters pipelineId params =>
      forget (StoreClient.getPipelineDefaultParameters respond pipelineId
                                                       params)
  | GetPipelinePipings pipelineId params =>
      forget (StoreClient.getPipelinePipings respond pipelineId params)
  | GetPipelinePlugins pipelineId params =>
      forget (StoreClient.getPipelinePlugins respond pipelineId params)
  | ModifyPipeline id data =>
      forget (StoreClient.modifyPipeline respond makeTemplate id data)
  | RemovePipeline id => forget (StoreClient.removePipeline respond id)
  end.

(** The pipeline URLs of a store client are set. *)
Definition pipelines_set (self : StoreClient.t) : Prop :=
  (StoreClient.pipelinesQueryUrl self =? "") = false /\
  url_truthy (StoreClient.pipelinesUrl self) = true.

(** The request that a pipeline method sends first when the pipeline URLs
    of the client are set: the list GET of [getPipelines] goes to
    [pipelinesQueryUrl] with the search parameters, or to [pipelinesUrl]
    without parameters when there are none; every other method looks the id
    up at [pipelinesQueryUrl]. *)
Definition cached_pipeline_request (self : StoreClient.t)
    (c : pipeline_call) : request :=
  let lookup id := store_get self (UStr (StoreClient.pipelinesQueryUrl self))
                             (PObj [("id", id)]) in
  match c with
  | GetPipelines searchParams =>
      if params_truthy searchParams then
        store_get self (UStr (StoreClient.pipelinesQueryUrl self))
                  searchParams
      else store_get self (StoreClient.pipelinesUrl self) PNull
  | GetPipeline id => lookup id
  | GetPipelineDefaultParameters pipelineId _ => lookup pipelineId
  | GetPipelinePipings pipelineId _ => lookup pipelineId
  | GetPipelinePlugins pipelineId _ => lookup pipelineId
  | ModifyPipeline id _ => lookup id
  | RemovePipeline id => lookup id
  end.

(** The POST of a list resource at [u]: a template built from [data], or
    [data] as it is next to a file. *)
Definition post_request (makeTemplate : object -> Template) (u : jsurl)
    (auth : Auth) (data : object) (file : option upload) (timeout : Z)
    : request :=
  resource_request u auth POST PNull
    (match file with
     | Some _ => BodyJson data
     | None => BodyTemplate (makeTemplate data)
     end) file timeout.

(** The request of [setUrls()]. *)
Definition discovery_request (self : Client.t) : request :=
  resource_request (Client.feedsUrl self) (Client.auth self) GET
                   (PNum 30000) NoBody None 30000.

(** ** Fixtures for the examples *)

Module Fixtures.

(** A scripted service: it answers the n-th request with the n-th canned
    answer and reports a network fault once the script is used up. *)
Definition script := list (failure + response).

Definition scripted (r : request) (s : script)
    : (failure + response) * script :=
  match s with
  | [] => (inl {| f_message := "Network Error"; f_response := None |}, [])
  | a :: s' => (a, s')
  end.

Definition start (s : script) : world script :=
  {| server := s; sent := [] |}.

Definition coll (links : list Link) (items : list Item) : Collection :=
  {| coll_version := "1.0";
     coll_href := "http://localhost:8010/api/v1/";
     coll_links := links; coll_items := items;
     coll_template := None; coll_error := None |}.

Definition ok (c : Collection) : failure + response :=
  inr {| status := 200;
         resp_data := {| p_collection := Some c; p_fields := [] |} |}.

Definition ok_json (o : object) : failure + response :=
  inr {| status := 200;
         resp_data := {| p_collection := None; p_fields := o |} |}.

Definition timed_out : failure + response :=
  inl {| f_message := "timeout of 30000ms exceeded";
         f_response := None |}.

Definition storeUrl : string := "http://localhost:8010/api/v1/".
Definition chrisUrl : string := "http://localhost:8000/api/v1/".

Definition store : StoreClient.t :=
  StoreClient.constructor storeUrl (Some (TokenAuth "d757da9c")) 30000.

Definition cube : Auth := BasicAuth "cube" "cube1234".

Definition chris : Client.t := fresh_client chrisUrl cube.

(** The entry point of the ChRIS service, with the links to its high level
    resources. *)
Definition feeds : Collection :=
  coll [ {| link_rel := "files"; link_href := chrisUrl ++ "files/" |};
         {| link_rel := "plugins"; link_href := chrisUrl ++ "plugins/" |};
         {| link_rel := "tags"; link_href := chrisUrl ++ "tags/" |};
         {| link_rel := "user"; link_href := chrisUrl ++ "users/1/" |} ]
       [].

(** The client after a successful discovery. *)
Definition discovered : Client.t :=
  fst (Client.discover Client.top_urls (Some feeds) chris).

(** A feed list that was fetched before. *)
Definition fetched : Resource.t :=
  Resource.populated_list (Resource.new (UStr chrisUrl) cube) feeds PNull.


Definition plugin (id : Z) (links : list Link) : Item :=
  {| item_href := storeUrl ++ to_string (Num id) ++ "/";
     item_data := [ {| d_name := "id"; d_value := Num id |};
                    {| d_name := "name"; d_value := Str "simplefsapp" |};
                    {| d_name := "public_repo";
                       d_value := Str "https://github.com/FNNDSC/a" |} ];
     item_links := links |}.

Definition network_error : failure + response :=
  inl {| f_message := "Network Error"; f_response := None |}.

Definition pipelines_link : Link :=
  {| link_rel := "pipelines"; link_href := storeUrl ++ "pipelines/" |}.

(** A store client that has set its pipeline URLs. *)
Definition store_with_pipelines : StoreClient.t :=
  {| StoreClient.storeUrl := storeUrl;
     StoreClient.storeQueryUrl := storeUrl ++ "search/";
     StoreClient.pipelinesUrl := UArr [(storeUrl ++ "pipelines/")%string];
     StoreClient.pipelinesQueryUrl := storeUrl ++ "pipelines/search/";
     StoreClient.auth := Some (TokenAuth "d757da9c");
     StoreClient.timeout := 30000;
     StoreClient.contentType := StoreClient.collection_json |}.

(** An item without a [public_repo] descriptor. *)
Definition bare (id : Z) : Item :=
  {| item_href := storeUrl ++ to_string (Num id) ++ "/";
     item_data := [ {| d_name := "id"; d_value := Num id |} ];
     item_links := [] |}.

End Fixtures.

(** * Properties *)

Unset Implicit Arguments.

(** Unfolding of the promise combinators and of the transport. *)
Ltac run :=
  unfold and_then, resolve, reject, settle, resolve_unguarded, this, assign,
    in_world, Request_get, Request_post, Request_put, Request_delete, send;
  simpl.

(** Case analysis on the synchronous result that a goal branches on. *)
Ltac case_sum :=
  match goal with
  | |- context [match ?x with inl _ => _ | inr _ => _ end] => destruct x
  end.

(** Use of the hypothesis [H] that the service answers the next request. *)
Ltac answered H :=
  unfold Request_get, Request_post, Request_put, Request_delete, send,
    store_get, store_put, store_post, account_request, token_request,
    resource_request, StoreClient.new_Request, StoreClient.collection_json
    in *;
  simpl in *; rewrite H; simpl.

(** A relation has a URL exactly when a link carries it. *)
Lemma getLinkRelationUrls_nonempty {A} `{Linked A} (obj : A) (rel : string) :
  StoreClient.nonempty (Collection.getLinkRelationUrls obj rel) = true <->
  exists l, In l (links_of obj) /\ link_rel l = rel.
Proof.
  unfold Collection.getLinkRelationUrls.
  induction (links_of obj) as [|l ls IH]; simpl.
  - split; [discriminate | intros (l & [] & _)].
  - destruct (link_rel l =? rel) eqn:E; simpl.
    + apply String.eqb_eq in E. split; [|reflexivity].
      intros _. exists l. auto.
    + apply String.eqb_neq in E. rewrite IH. split.
      * intros (l' & Hin & Hrel). exists l'. auto.
      * intros (l' & [<- | Hin] & Hrel); [contradiction|]. exists l'. auto.
Qed.

Lemma getLinkRelationUrls_nil {A} `{Linked A} (obj : A) (rel : string) :
  Collection.getLinkRelationUrls obj rel = [] <->
  forall l, In l (links_of obj) -> link_rel l <> rel.
Proof.
  pose proof (getLinkRelationUrls_nonempty obj rel) as Hne.
  destruct (Collection.getLinkRelationUrls obj rel) as [|u us]; simpl in Hne.
  - split; [|reflexivity]. intros _ l Hin Hrel.
    assert (false = true) by (apply Hne; exists l; auto). discriminate.
  - split; [discriminate|]. intros Hno.
    destruct Hne as [Hne _]. destruct (Hne eq_refl) as (l & Hin & Hrel).
    exfalso. exact (Hno l Hin Hrel).
Qed.

(** ** Requests and answers *)

Lemma in_world_run {O W A} (m : async W A) (o : O) (w : W) :
  in_world m (o, w) = (fst (m w), (o, snd (m w))).
Proof. unfold in_world. simpl. now destruct (m w). Qed.

Section Requests.

Variable S : Type.
Variable respond : request -> S -> (failure + response) * S.

(** One answered request. *)
Lemma send_answered (r : request) (w : world S) (resp : response) (s : S) :
  respond r (server w) = (inr resp, s) ->
  send respond r w = (Resolved resp, logged w s [r]).
Proof. intros H. unfold send. now rewrite H. Qed.

Lemma fetchCollection_answered (self : StoreClient.t) (u : jsurl)
    (searchParams : params) (w : world S) (resp : response) (s : S) :
  respond (store_get self u searchParams) (server w) = (inr resp, s) ->
  StoreClient._fetchCollection respond self u searchParams w =
    (Resolved (p_collection (resp_data resp)),
     logged w s [store_get self u searchParams]).
Proof.
  intros H.
  unfold StoreClient._fetchCollection, Request_get, and_then, send,
    store_get in *.
  simpl in *. now rewrite H.
Qed.

Lemma store_get_answered (self : StoreClient.t) (u : jsurl)
    (searchParams : params) (w : world S) (resp : response) (s : S) :
  respond (store_get self u searchParams) (server w) = (inr resp, s) ->
  Request_get respond (StoreClient.new_Request self) u searchParams w =
    (Resolved resp, logged w s [store_get self u searchParams]).
Proof. intros H. apply (send_answered _ _ _ _ H). Qed.

Lemma store_put_answered (self : StoreClient.t) (u : jsurl) (b : body)
    (w : world S) (resp : response) (s : S) :
  respond (store_put self u b) (server w) = (inr resp, s) ->
  Request_put respond (StoreClient.new_Request self) u b w =
    (Resolved resp, logged w s [store_put self u b]).
Proof. intros H. apply (send_answered _ _ _ _ H). Qed.

Lemma store_post_answered (self : StoreClient.t) (u : jsurl) (b : body)
    (file : option upload) (w : world S) (resp : response) (s : S) :
  respond (store_post self u b file) (server w) = (inr resp, s) ->
  Request_post respond (StoreClient.new_Request self) u b file w =
    (Resolved resp, logged w s [store_post self u b file]).
Proof. intros H. apply (send_answered _ _ _ _ H). Qed.

(** Whatever the service answers, one call of the transport logs exactly
    its request. *)
Lemma sent_send (r : request) (w : world S) :
  sent (snd (send respond r w)) = sent w ++ [r].
Proof.
  unfold send. destruct (respond r (server w)) as [[f|resp] s]; reflexivity.
Qed.

(** The pipeline methods first make sure the URLs are set. *)
Lemma with_pipelinesQueryUrl_ensure A
    (k : StoreClient.t -> string -> async (world S) A)
    (st : StoreClient.t * world S) :
  StoreClient.with_pipelinesQueryUrl respond k st =
    match ensure_pipelines_urls respond st with
    | (Resolved _, (self, w)) =>
        let (r, w') := k self (StoreClient.pipelinesQueryUrl self) w in
        (r, (self, w'))
    | (Rejected e, st') => (Rejected e, st')
    | (Unsettled e, st') => (Unsettled e, st')
    end.
Proof.
  destruct st as [self w].
  unfold StoreClient.with_pipelinesQueryUrl, ensure_pipelines_urls.
  run. destruct (StoreClient.pipelinesQueryUrl self =? ""); simpl.
  - destruct (StoreClient.setPipelinesUrls respond (self, w))
      as [[[]|e|e] [self' w']]; reflexivity.
  - reflexivity.
Qed.

(** A throw of the last statement settles the promise as [item_result]
    says. *)
Lemma settle_item_result (resp : response) (w : world S) :
  fst (settle (StoreClient.getDataFromResponse resp "item") w)
    = item_result true resp.
Proof.
  unfold item_result.
  destruct (StoreClient.getDataFromResponse resp "item"); reflexivity.
Qed.

Lemma resolve_unguarded_item_result (resp : response) (w : world S) :
  fst (resolve_unguarded (StoreClient.getDataFromResponse resp "item") w)
    = item_result false resp.
Proof.
  unfold item_result.
  destruct (StoreClient.getDataFromResponse resp "item"); reflexivity.
Qed.

End Requests.

(** ** Lookups by id *)

(** C1 (counterexample). The store answers the lookup of plugin 7 with an
    empty collection: [getPlugin] rejects with a [RequestException], not
    with a [NotFoundError]. *)
Lemma getPlugin_not_found_counterexample :
  fst (StoreClient.getPlugin Fixtures.scripted Fixtures.store (Num 7)
         (Fixtures.start [Fixtures.ok (Fixtures.coll [] [])]))
    = Rejected (new_RequestException "Could not find resource with id: 7") /\
  ex_class (new_RequestException "Could not find resource with id: 7")
    = RequestException /\
  RequestException <> NotFoundError.
Proof. repeat split. discriminate. Qed.

Section Lookups.

Variable S : Type.
Variable respond : request -> S -> (failure + response) * S.

Lemma getItem_nothing (listRes : Resource.t) (id : jsval) :
  Resource.getItems listRes = [] ->
  exists e, Resource.getItem listRes id = inl e /\
            ex_class e = NotFoundError.
Proof.
  intros H. unfold Resource.getItem. rewrite H. simpl.
  eexists. split; reflexivity.
Qed.

Lemma getItemResourceData_nothing (self : StoreClient.t)
    (resQueryUrl : string) (id : jsval) (w : world S) (resp : response)
    (s : S) (coll : Collection) :
  let lookup := store_get self (UStr resQueryUrl) (PObj [("id", id)]) in
  respond lookup (server w) = (inr resp, s) ->
  p_collection (resp_data resp) = Some coll ->
  coll_items coll = [] ->
  StoreClient._getItemResourceData respond self resQueryUrl id w =
    (Rejected (StoreClient.not_found id), logged w s [lookup]).
Proof.
  intros lookup Hresp Hcoll Hitems.
  unfold StoreClient._getItemResourceData, and_then.
  rewrite (@fetchCollection_answered _ respond _ _ _ _ _ _ Hresp), Hcoll.
  simpl. now rewrite Hitems.
Qed.

(** C1 (amended). A lookup by id whose filtered fetch succeeds with zero
    items fails as follows. The eight lookups of [Client] reject with what
    [getItem] of the fetched list throws, a [NotFoundError]. [getPlugin]
    and [getPipeline] of [StoreClient] reject with the [RequestException]
    whose message is "Could not find resource with id: " followed by the
    id. *)
Theorem lookup_by_id_matching_nothing :
  (forall l id timeout (st st' : Client.t * world S) listRes,
     Client.lookup_list respond l (PObj [("id", id)]) timeout st
       = (Resolved listRes, st') ->
     Resource.getItems listRes = [] ->
     exists e, Client.lookup_item respond l id timeout st = (Rejected e, st')
               /\ ex_class e = NotFoundError) /\
  (forall self id (w : world S) resp s coll,
     let lookup := store_get self (UStr (StoreClient.storeQueryUrl self))
                             (PObj [("id", id)]) in
     respond lookup (server w) = (inr resp, s) ->
     p_collection (resp_data resp) = Some coll ->
     coll_items coll = [] ->
     StoreClient.getPlugin respond self id w =
       (Rejected (StoreClient.not_found id), logged w s [lookup])) /\
  (forall self id (w : world S) self1 w1 resp s coll,
     let lookup := store_get self1
                     (UStr (StoreClient.pipelinesQueryUrl self1))
                     (PObj [("id", id)]) in
     ensure_pipelines_urls respond (self, w) = (Resolved tt, (self1, w1)) ->
     respond lookup (server w1) = (inr resp, s) ->
     p_collection (resp_data resp) = Some coll ->
     coll_items coll = [] ->
     StoreClient.getPipeline respond id (self, w) =
       (Rejected (StoreClient.not_found id),
        (self1, logged w1 s [lookup]))) /\
  (forall id,
     StoreClient.not_found id =
       new_RequestException
         ("Could not find resource with id: " ++ to_string id) /\
     ex_class (StoreClient.not_found id) = RequestException).
Proof.
  repeat apply conj.
  - intros l id timeout st st' listRes Hlist Hnone.
    destruct (getItem_nothing listRes id Hnone) as (e & He & Hclass).
    exists e. split; [|exact Hclass].
    destruct l; simpl in Hlist |- *;
      unfold Client.getFeed, Client.getFile, Client.getPlugin,
        Client.getPluginInstance, Client.getPipeline,
        Client.getPipelineInstance, Client.getTag, Client.getUploadedFile,
        and_then;
      rewrite Hlist, He; reflexivity.
  - intros self id w resp s coll lookup Hresp Hcoll Hitems.
    apply (getItemResourceData_nothing _ _ _ _ _ _ _ Hresp Hcoll Hitems).
  - intros self id w self1 w1 resp s coll lookup He Hresp Hcoll Hitems.
    unfold StoreClient.getPipeline.
    rewrite with_pipelinesQueryUrl_ensure, He.
    now rewrite (getItemResourceData_nothing _ _ _ _ _ _ _ Hresp Hcoll Hitems).
  - intros id. split; reflexivity.
Qed.

End Lookups.

(** C1 (witness). [getFeed], [getPlugin] of both clients and [getPipeline]
    for an id that the service does not know. *)
Lemma lookup_by_id_matching_nothing_witness :
  let nothing := Fixtures.ok (Fixtures.coll [] []) in
  let root := Fixtures.ok (Fixtures.coll
    [ {| link_rel := "pipelines";
         link_href := "http://localhost:8010/api/v1/pipelines/" |} ] []) in
  (exists e,
     fst (Client.getFeed Fixtures.scripted (Num 7) 30000
            (Fixtures.chris, Fixtures.start [nothing])) = Rejected e /\
     ex_class e = NotFoundError) /\
  (exists e,
     fst (Client.getPlugin Fixtures.scripted (Num 7) 30000
            (Fixtures.chris,
             Fixtures.start [Fixtures.ok Fixtures.feeds; nothing]))
       = Rejected e /\
     ex_class e = NotFoundError) /\
  fst (StoreClient.getPlugin Fixtures.scripted Fixtures.store (Num 7)
         (Fixtures.start [nothing]))
    = Rejected (new_RequestException "Could not find resource with id: 7") /\
  fst (StoreClient.getPipeline Fixtures.scripted (Num 7)
         (Fixtures.store, Fixtures.start [root; nothing]))
    = Rejected (new_RequestException "Could not find resource with id: 7").
Proof.
  cbv zeta.
  destruct (@lookup_by_id_matching_nothing _ Fixtures.scripted)
    as (Hclient & HgetPlugin & HgetPipeline & _).
  repeat apply conj.
  - edestruct (Hclient Client.GetFeed (Num 7) 30000
                 (Fixtures.chris,
                  Fixtures.start [Fixtures.ok (Fixtures.coll [] [])]))
      as (e & Hrun & Hclass); [cbv; reflexivity | reflexivity |].
    exists e. split; [exact (f_equal fst Hrun) | exact Hclass].
  - edestruct (Hclient Client.GetPlugin (Num 7) 30000
                 (Fixtures.chris,
                  Fixtures.start [Fixtures.ok Fixtures.feeds;
                                  Fixtures.ok (Fixtures.coll [] [])]))
      as (e & Hrun & Hclass); [cbv; reflexivity | reflexivity |].
    exists e. split; [exact (f_equal fst Hrun) | exact Hclass].
  - erewrite HgetPlugin; reflexivity.
  - erewrite HgetPipeline; first [reflexivity | cbv; reflexivity].
Defined.

(** ** Construction *)

Example constructor_with_credentials :
  Client.constructor Fixtures.chrisUrl (Some Fixtures.cube)
    = inr Fixtures.chris.
Proof. reflexivity. Qed.

(** C2 (counterexample). Constructing a [Client] without credentials
    throws a [RequestException], which is not a [ConfigError], and a
    [StoreClient] is constructed without credentials. *)
Lemma construction_without_credentials_counterexample :
  Client.constructor Fixtures.chrisUrl None =
    inl (new_RequestException "Authentication object is required") /\
  ex_class (new_RequestException "Authentication object is required")
    <> ConfigError /\
  StoreClient.auth (StoreClient.constructor Fixtures.storeUrl None 30000)
    = None.
Proof. repeat split; discriminate. Qed.

(** C2 (amended). Constructing a [Client] without a credentials object
    fails in the constructor itself with the [RequestException]
    "Authentication object is required", and a [Client] that is constructed
    holds the credentials it was given; constructing a [StoreClient] never
    fails and stores the credentials argument as it is, missing or not. *)
Theorem construction_credentials :
  (forall url,
     Client.constructor url None =
       inl (new_RequestException "Authentication object is required")) /\
  ex_class (new_RequestException "Authentication object is required")
    = RequestException /\
  (forall url auth,
     exists c, Client.constructor url (Some auth) = inr c /\
               Client.auth c = auth) /\
  (forall storeUrl auth timeout,
     StoreClient.auth (StoreClient.constructor storeUrl auth timeout)
       = auth).
Proof.
  repeat split.
  intros url auth. eexists. split; reflexivity.
Qed.

(** ** Token and account requests *)

Example getAuthToken_resolves_to_token :
  fst (Client.getAuthToken Fixtures.scripted
         "http://localhost:8000/api/v1/auth-token/" "cube" "cube1234" 30000
         (Fixtures.start [Fixtures.ok_json [("token", Str "d757da9c")]]))
    = Resolved (Str "d757da9c").
Proof. reflexivity. Qed.

(** C3 (counterexample). [createUser] of both clients posts the
    Collection+JSON template envelope under the Collection+JSON content
    type, not a plain JSON object. *)
Lemma createUser_plain_json_counterexample :
  let users := "http://localhost:8000/api/v1/users/" in
  let envelope := BodyTemplate {| template_data :=
    [ {| d_name := "username"; d_value := Str "cube" |};
      {| d_name := "password"; d_value := Str "cube1234" |};
      {| d_name := "email"; d_value := Str "cube@babymri.org" |} ] |} in
  let plain := BodyJson [("username", Str "cube");
                         ("password", Str "cube1234");
                         ("email", Str "cube@babymri.org")] in
  let answer := [Fixtures.ok (Fixtures.coll [] [Fixtures.plugin 1 []])] in
  let store := sent (snd (StoreClient.createUser Fixtures.scripted users
                            "cube" "cube1234" "cube@babymri.org" 30000
                            (Fixtures.start answer))) in
  let chris := sent (snd (Client.createUser Fixtures.scripted users
                            "cube" "cube1234" "cube@babymri.org" 30000
                            (Fixtures.start answer))) in
  map rq_body store = [envelope] /\ map rq_body chris = [envelope] /\
  envelope <> plain /\
  map rq_contentType store = ["application/vnd.collection+json"] /\
  map rq_contentType chris = ["application/vnd.collection+json"].
Proof. cbv zeta. repeat split. discriminate. Qed.

Section Encoding.

Variable S : Type.
Variable respond : request -> S -> (failure + response) * S.

(** C3 (amended). [getAuthToken] of both clients sends one POST whose
    body is the plain JSON object [{username, password}] under the
    content type [application/json], and resolves to the [token] member
    of the response when the transport succeeds (it rejects with the
    transport's exception otherwise). [createUser] of both clients sends
    one POST whose body is the template envelope with the descriptors
    [username], [password] and [email], under the Collection+JSON content
    type. *)
Theorem auth_token_and_account_encoding
    (w : world S) (target username password email : string)
    (timeout : Z) :
  let token := token_request target username password timeout in
  let account :=
    account_request target username password email timeout in
  let expected :=
    match fst (respond token (server w)) with
    | inr resp => Resolved (get_prop (p_fields (resp_data resp)) "token")
    | inl f => Rejected {| ex_class := RequestException;
                           ex_message := f_message f;
                           ex_request := Some token;
                           ex_response := f_response f |}
    end in
  (fst (StoreClient.getAuthToken respond target username password
                                 timeout w) = expected /\
   fst (Client.getAuthToken respond target username password timeout w)
     = expected) /\
  (sent (snd (StoreClient.getAuthToken respond target username password
                                       timeout w)) = sent w ++ [token] /\
   sent (snd (Client.getAuthToken respond target username password
                                  timeout w)) = sent w ++ [token]) /\
  (sent (snd (StoreClient.createUser respond target username password
                                     email timeout w))
     = sent w ++ [account] /\
   sent (snd (Client.createUser respond target username password email
                                timeout w)) = sent w ++ [account]).
Proof.
  cbv zeta.
  unfold StoreClient.getAuthToken, Client.getAuthToken,
    StoreClient.createUser, Client.createUser, token_request,
    account_request, StoreClient.collection_json.
  run.
  repeat split;
    match goal with
    | |- context [respond ?r (server w)] =>
        destruct (respond r (server w)) as [[f|resp] s]
    end; simpl; try reflexivity; case_sum; reflexivity.
Qed.

End Encoding.

(** ** Related lists *)

(** C4 (counterexample). The plugin with id 1 is found and carries no
    ['parameters'] link: [getPluginParameters] resolves to the empty
    default result after the one lookup request; it does not fail. *)
Lemma getPluginParameters_without_relation_counterexample :
  let answer := [Fixtures.ok (Fixtures.coll [] [Fixtures.plugin 1 []])] in
  let run := StoreClient.getPluginParameters Fixtures.scripted
               Fixtures.store (Num 1) PNull (Fixtures.start answer) in
  fst run = Resolved {| StoreClient.data := StoreClient.DataList [];
                        StoreClient.hasNextPage := Some false;
                        StoreClient.hasPreviousPage := Some false |} /\
  sent (snd run) =
    [store_get Fixtures.store
       (UStr (StoreClient.storeQueryUrl Fixtures.store))
       (PObj [("id", Num 1)])].
Proof. cbv zeta. split; reflexivity. Qed.

Section RelatedList.

Variable S : Type.
Variable respond : request -> S -> (failure + response) * S.

(** C4 (amended). When the lookup by id of
    [_getResourceRelatedListData] succeeds and the first item found carries
    no link with the requested relation, the operation resolves to the
    default result [{data: [], hasNextPage: false, hasPreviousPage: false}]
    and sends no request besides the lookup. *)
Theorem getResourceRelatedListData_without_relation
    (self : StoreClient.t) (resQueryUrl : string) (id : jsval)
    (listRelName : string) (params : params) (w : world S)
    (resp : response) (s : S) (coll : Collection) (item : Item)
    (rest : list Item) :
  let lookup := store_get self (UStr resQueryUrl) (PObj [("id", id)]) in
  respond lookup (server w) = (inr resp, s) ->
  p_collection (resp_data resp) = Some coll ->
  coll_items coll = item :: rest ->
  (forall l, In l (item_links item) -> link_rel l <> listRelName) ->
  StoreClient._getResourceRelatedListData respond self resQueryUrl id
                                          listRelName params w =
    (Resolved {| StoreClient.data := StoreClient.DataList [];
                 StoreClient.hasNextPage := Some false;
                 StoreClient.hasPreviousPage := Some false |},
     logged w s [lookup]).
Proof.
  intros lookup Hresp Hcoll Hitems Hno.
  unfold StoreClient._getResourceRelatedListData, and_then.
  rewrite (@fetchCollection_answered _ respond _ _ _ _ _ _ Hresp), Hcoll.
  rewrite Hitems. cbv beta iota.
  now rewrite (proj2 (@getLinkRelationUrls_nil Item Linked_Item item
                        listRelName) Hno).
Qed.

End RelatedList.

(** C4 (witness). The amended statement at the plugin without links. *)
Lemma getResourceRelatedListData_without_relation_witness :
  StoreClient._getResourceRelatedListData Fixtures.scripted Fixtures.store
    (StoreClient.storeQueryUrl Fixtures.store) (Num 1) "parameters" PNull
    (Fixtures.start [Fixtures.ok (Fixtures.coll [] [Fixtures.plugin 1 []])])
  = (Resolved {| StoreClient.data := StoreClient.DataList [];
                 StoreClient.hasNextPage := Some false;
                 StoreClient.hasPreviousPage := Some false |},
     logged (Fixtures.start
               [Fixtures.ok (Fixtures.coll [] [Fixtures.plugin 1 []])])
            []
            [store_get Fixtures.store
               (UStr (StoreClient.storeQueryUrl Fixtures.store))
               (PObj [("id", Num 1)])]).
Proof.
  eapply (@getResourceRelatedListData_without_relation _ Fixtures.scripted
            Fixtures.store (StoreClient.storeQueryUrl Fixtures.store)
            (Num 1) "parameters" PNull
            (Fixtures.start
               [Fixtures.ok (Fixtures.coll [] [Fixtures.plugin 1 []])])).
  - reflexivity.
  - reflexivity.
  - reflexivity.
  - simpl. intros l [].
Defined.


(** ** Page flags *)

Example second_of_three_pages :
  let links := [ {| link_rel := "next";
                    link_href := Fixtures.storeUrl ++ "?offset=20" |};
                 {| link_rel := "previous";
                    link_href := Fixtures.storeUrl ++ "?offset=0" |} ] in
  StoreClient.getDataFromCollection (Fixtures.coll links []) "list"
    = inr {| StoreClient.data := StoreClient.DataList [];
             StoreClient.hasNextPage := Some true;
             StoreClient.hasPreviousPage := Some true |}.
Proof. reflexivity. Qed.

Example last_page :
  StoreClient.getDataFromCollection
    (Fixtures.coll [ {| link_rel := "previous";
                        link_href := Fixtures.storeUrl ++ "?offset=0" |} ]
                   [Fixtures.plugin 1 []; Fixtures.plugin 2 []]) "list"
    = inr {| StoreClient.data :=
               StoreClient.DataList
                 [Collection.getItemDescriptors (Fixtures.plugin 1 []);
                  Collection.getItemDescriptors (Fixtures.plugin 2 [])];
             StoreClient.hasNextPage := Some false;
             StoreClient.hasPreviousPage := Some true |}.
Proof. reflexivity. Qed.

(** C5. For every collection, whatever the number of its items, the list
    result of [getDataFromCollection] has both page flags set, its
    [hasNextPage] is true exactly when the collection has a link with
    relation [next], and its [hasPreviousPage] is true exactly when it has a
    link with relation [previous]. *)
Theorem getDataFromCollection_list_page_flags (coll : Collection) :
  exists next previous,
    StoreClient.getDataFromCollection coll "list" =
      inr {| StoreClient.data :=
               StoreClient.DataList
                 (map Collection.getItemDescriptors (coll_items coll));
             StoreClient.hasNextPage := Some next;
             StoreClient.hasPreviousPage := Some previous |} /\
    (next = true <->
       exists l, In l (coll_links coll) /\ link_rel l = "next") /\
    (previous = true <->
       exists l, In l (coll_links coll) /\ link_rel l = "previous").
Proof.
  exists (StoreClient.nonempty (Collection.getLinkRelationUrls coll "next")),
    (StoreClient.nonempty (Collection.getLinkRelationUrls coll "previous")).
  split; [reflexivity|].
  split; apply getLinkRelationUrls_nonempty.
Qed.

(** ** Following a relation *)


Section RelationFollowing.

Variable S : Type.
Variable respond : request -> S -> (failure + response) * S.
Variable makeTemplate : object -> Template.



End RelationFollowing.


(** ** Failed resource operations *)

Section ResourceFailure.

Variable S : Type.
Variable respond : request -> S -> (failure + response) * S.
Variable makeTemplate : object -> Template.

(** C7. When the transport fails on the request of a resource operation
    (timeout, network fault or non-2xx response), the operation rejects
    with the [RequestException] of that failure and the resource object,
    with its collection snapshot, is exactly what it was before. In every
    case, the object is only changed by an operation that resolves. *)
Theorem resource_operation_failure
    (op : Resource.operation) (self : Resource.t) (w : world S) :
  let sending := Resource.operation_request makeTemplate self op in
  (forall f s,
     respond sending (server w) = (inl f, s) ->
     Resource.perform respond makeTemplate op (self, w) =
       (Rejected {| ex_class := RequestException;
                    ex_message := f_message f;
                    ex_request := Some sending;
                    ex_response := f_response f |},
        (self, logged w s [sending]))) /\
  (fst (snd (Resource.perform respond makeTemplate op (self, w))) = self \/
   exists r, fst (Resource.perform respond makeTemplate op (self, w))
             = Resolved r).
Proof.
  cbv zeta. split.
  - intros f s H.
    destruct op as [sp t|t|data [file|] t|data t|t];
      unfold Resource.perform, Resource.ListResource_get,
        Resource.ItemResource_get, Resource.ListResource_post,
        Resource.ItemResource_put, Resource.ItemResource_delete,
        Resource.operation_request in *;
      run; simpl in H; rewrite H; reflexivity.
  - destruct op as [sp t|t|data [file|] t|data t|t];
      unfold Resource.perform, Resource.ListResource_get,
        Resource.ItemResource_get, Resource.ListResource_post,
        Resource.ItemResource_put, Resource.ItemResource_delete;
      run;
      match goal with
      | |- context [respond ?r (server w)] =>
          destruct (respond r (server w)) as [[f|resp] s]
      end; simpl; auto;
      try (destruct (Resource.decode resp); simpl; eauto).
Qed.

End ResourceFailure.

(** C7 (witness). A fetched feed list whose next [get] times out keeps
    its collection and page flags; the promise rejects with a
    [RequestException]. *)
Lemma resource_operation_failure_witness :
  let sending :=
    resource_request (UStr Fixtures.chrisUrl) Fixtures.cube GET
                     (PObj [("limit", Num 10)]) NoBody None 30000 in
  Resource.perform Fixtures.scripted Collection.makeTemplate
    (Resource.Get (PObj [("limit", Num 10)]) 30000)
    (Fixtures.fetched, Fixtures.start [Fixtures.timed_out])
  = (Rejected {| ex_class := RequestException;
                 ex_message := "timeout of 30000ms exceeded";
                 ex_request := Some sending;
                 ex_response := None |},
     (Fixtures.fetched, logged (Fixtures.start [Fixtures.timed_out]) []
                               [sending])).
Proof.
  cbv zeta.
  apply (proj1 (@resource_operation_failure _ Fixtures.scripted
                  Collection.makeTemplate
                  (Resource.Get (PObj [("limit", Num 10)]) 30000)
                  Fixtures.fetched (Fixtures.start [Fixtures.timed_out]))
               {| f_message := "timeout of 30000ms exceeded";
                  f_response := None |} []).
  reflexivity.
Defined.

(** ** Discovery of the top level URLs *)

Section Discovery.

Variable S : Type.
Variable respond : request -> S -> (failure + response) * S.

Lemma top_url_eqb_eq (f g : Client.top_url) :
  Client.top_url_eqb f g = true <-> f = g.
Proof. destruct f, g; simpl; split; congruence. Qed.

Lemma get_url_set_url (f g : Client.top_url) (u : jsurl) (self : Client.t) :
  Client.get_url g (Client.set_url f u self) =
    if Client.top_url_eqb f g then u else Client.get_url g self.
Proof. destruct g; reflexivity. Qed.

(** The assignments of [getFeeds] never change a populated field. *)
Lemma discover_keeps_populated (fs : list Client.top_url)
    (coll : option Collection) (g : Client.top_url) :
  forall self,
    url_truthy (Client.get_url g self) = true ->
    Client.get_url g (fst (Client.discover fs coll self))
      = Client.get_url g self.
Proof.
  induction fs as [|f fs IH]; intros self Hg; simpl; [reflexivity|].
  destruct (url_truthy (Client.get_url f self)) eqn:Hf.
  - rewrite IH; rewrite get_url_set_url;
      destruct (Client.top_url_eqb f g) eqn:E; try reflexivity; try exact Hg.
    + apply top_url_eqb_eq in E. now subst g.
    + apply top_url_eqb_eq in E. now subst g.
  - destruct coll as [c|]; [|reflexivity].
    assert (E : Client.top_url_eqb f g = false).
    { destruct (Client.top_url_eqb f g) eqn:E; [|reflexivity].
      apply top_url_eqb_eq in E. subst g. congruence. }
    rewrite IH; rewrite get_url_set_url, E; [reflexivity | exact Hg].
Qed.

(** With a collection at hand nothing throws, and every field that was
    empty holds the array of the URLs of its relation. *)
Lemma discover_fills (c : Collection) (fs : list Client.top_url) :
  forall self,
    snd (Client.discover fs (Some c) self) = None /\
    forall g,
      Client.get_url g (fst (Client.discover fs (Some c) self)) =
        if existsb (Client.top_url_eqb g) fs
           && negb (url_truthy (Client.get_url g self))
        then UArr (Collection.getLinkRelationUrls c (Client.relation g))
        else Client.get_url g self.
Proof.
  induction fs as [|f fs IH]; intros self; simpl.
  - split; [reflexivity|]. intros g. reflexivity.
  - destruct (url_truthy (Client.get_url f self)) eqn:Hf.
    + destruct (IH (Client.set_url f (Client.get_url f self) self))
        as [Hnone Hget].
      split; [exact Hnone|]. intros g. rewrite Hget, !get_url_set_url.
      destruct (Client.top_url_eqb f g) eqn:E.
      * apply top_url_eqb_eq in E. subst g. rewrite Hf.
        now rewrite !andb_false_r.
      * destruct (Client.top_url_eqb g f) eqn:E'; [|reflexivity].
        apply top_url_eqb_eq in E'. subst g.
        assert (Client.top_url_eqb f f = true) by now apply top_url_eqb_eq.
        congruence.
    + destruct (IH (Client.set_url f
                      (UArr (Collection.getLinkRelationUrls
                               c (Client.relation f))) self))
        as [Hnone Hget].
      split; [exact Hnone|]. intros g. rewrite Hget, !get_url_set_url.
      destruct (Client.top_url_eqb f g) eqn:E.
      * apply top_url_eqb_eq in E. subst g. simpl.
        rewrite andb_false_r, Hf.
        assert (Client.top_url_eqb f f = true) as ->
            by now apply top_url_eqb_eq.
        reflexivity.
      * destruct (Client.top_url_eqb g f) eqn:E'; [|reflexivity].
        apply top_url_eqb_eq in E'. subst g.
        assert (Client.top_url_eqb f f = true) by now apply top_url_eqb_eq.
        congruence.
Qed.

(** What [getFeeds] does, by the answer of the service. *)
Lemma getFeeds_run (searchParams : params) (timeout : Z) (self : Client.t)
    (w : world S) :
  let fetch := resource_request (Client.feedsUrl self) (Client.auth self)
                 GET searchParams NoBody None timeout in
  sent (snd (snd (Client.getFeeds respond searchParams timeout (self, w))))
    = sent w ++ [fetch] /\
  (fst (snd (Client.getFeeds respond searchParams timeout (self, w))) = self
   \/ exists resp s coll,
        respond fetch (server w) = (inr resp, s) /\
        p_collection (resp_data resp) = Some coll /\
        fst (snd (Client.getFeeds respond searchParams timeout (self, w)))
          = fst (Client.discover Client.top_urls (Some coll) self)).
Proof.
  cbv zeta.
  unfold Client.getFeeds, Client.on_object, Resource.ListResource_get,
    Resource.wire, Resource.new, resource_request, Resource.decode,
    StoreClient.collection_json.
  set (assignments := Client.discover Client.top_urls).
  run.
  destruct (respond _ (server w)) as [[f|resp] s] eqn:Hresp; simpl;
    [auto|].
  destruct (p_collection (resp_data resp)) as [coll|] eqn:Hcoll; simpl;
    [|auto].
  destruct (discover_fills coll Client.top_urls self) as [Hnone _].
  fold assignments in Hnone.
  destruct (assignments (Some coll) self) as [self' thrown] eqn:Hd.
  simpl in Hnone. subst thrown. simpl. split; [reflexivity|].
  right. exists resp, s, coll. rewrite Hd. auto.
Qed.

(** The fetch of [_fetchRes] sends one request, to the URL it closed
    over, and leaves the client as it is. *)
Lemma getRes_run (cls : Client.ResClass) (res : Resource.t)
    (searchParams : params) (timeout : Z) (w : world S) :
  exists r,
    rq_url r = Resource.url res /\
    sent (snd ((if params_truthy searchParams
                then Client.get2 respond cls res searchParams timeout
                else Client.get1 respond cls res timeout) w))
      = sent w ++ [r].
Proof.
  unfold Client.get2, Client.get1, Client.on_object,
    Resource.ListResource_get, Resource.ItemResource_get, Resource.wire.
  destruct (params_truthy searchParams), (Client.is_list cls); run;
    match goal with
    | |- context [respond ?r (server w)] =>
        exists r; split; [reflexivity|];
        destruct (respond r (server w)) as [[f|resp] s]
    end; simpl; try reflexivity;
    destruct (Resource.decode resp); reflexivity.
Qed.

(** Each getter is [_fetchRes] on the current value of its field. *)
Lemma getter_fetchRes (f : Client.top_url) (searchParams : params)
    (timeout : Z) (st : Client.t * world S) :
  exists cls sp,
    Client.getter respond f searchParams timeout st =
      Client._fetchRes respond (Client.get_url f (fst st)) cls sp timeout st.
Proof.
  destruct st as [self w].
  destruct f; simpl;
    [ exists Client.AllFeedFileList, searchParams
    | exists Client.PluginList, searchParams
    | exists Client.AllPluginInstanceList, searchParams
    | exists Client.PipelineList, searchParams
    | exists Client.AllPipelineInstanceList, searchParams
    | exists Client.TagList, searchParams
    | exists Client.UploadedFileList, searchParams
    | exists Client.User, PNull ];
    reflexivity.
Qed.

Lemma getFeeds_answered (searchParams : params) (timeout : Z)
    (self : Client.t) (w : world S) (resp : response) (s : S)
    (coll : Collection) :
  let fetch := resource_request (Client.feedsUrl self) (Client.auth self)
                 GET searchParams NoBody None timeout in
  respond fetch (server w) = (inr resp, s) ->
  p_collection (resp_data resp) = Some coll ->
  Client.getFeeds respond searchParams timeout (self, w) =
    (Resolved (Resource.populated_list
                 (Resource.new (Client.feedsUrl self) (Client.auth self))
                 coll searchParams),
     (fst (Client.discover Client.top_urls (Some coll) self),
      logged w s [fetch])).
Proof.
  cbv zeta. intros Hresp Hcoll.
  unfold Client.getFeeds, Client.on_object, Resource.ListResource_get,
    Resource.wire, Resource.new, resource_request, Resource.decode,
    StoreClient.collection_json in *.
  set (assignments := Client.discover Client.top_urls).
  run. simpl in Hresp. rewrite Hresp. simpl. rewrite Hcoll. simpl.
  destruct (discover_fills coll Client.top_urls self) as [Hnone _].
  fold assignments in Hnone.
  destruct (assignments (Some coll) self) as [self' thrown].
  simpl in Hnone. subst thrown. reflexivity.
Qed.

(** [_fetchRes] leaves the client as it is when its URL argument is
    populated, and as [setUrls] leaves it otherwise. *)
Lemma fetchRes_run (resUrl : jsurl) (cls : Client.ResClass)
    (searchParams : params) (timeout : Z) (self : Client.t) (w : world S) :
  let run := Client._fetchRes respond resUrl cls searchParams timeout
                              (self, w) in
  let discovery := Client.getFeeds respond (PNum 30000) 30000 (self, w) in
  if url_truthy resUrl then
    fst (snd run) = self /\
    exists r, rq_url r = resUrl /\ sent (snd (snd run)) = sent w ++ [r]
  else
    fst (snd run) = fst (snd discovery) /\
    exists rest,
      sent (snd (snd run)) = sent (snd (snd discovery)) ++ rest.
Proof.
  cbv zeta. unfold Client._fetchRes, Client.setUrls.
  destruct (url_truthy resUrl).
  - unfold and_then, this. cbn [fst snd]. rewrite in_world_run.
    cbn [fst snd]. split; [reflexivity|].
    apply (getRes_run cls (Resource.new resUrl (Client.auth self))
             searchParams timeout w).
  - unfold and_then, this. cbv beta.
    destruct (Client.getFeeds respond (PNum 30000) 30000 (self, w))
      as [[feedList|e|e] [self1 w1]]; cbn [fst snd].
    + rewrite in_world_run.
      cbn [fst snd]. split; [reflexivity|].
      destruct (getRes_run cls (Resource.new resUrl (Client.auth self1))
                  searchParams timeout w1) as (r & _ & Hsent).
      exists [r]. exact Hsent.
    + split; [reflexivity|]. exists []. now rewrite app_nil_r.
    + split; [reflexivity|]. exists []. now rewrite app_nil_r.
Qed.

(** C8. A getter of [Client] whose URL field is empty starts with the
    discovery request of [setUrls], the GET of the feed list, and once that
    is answered with a collection the field holds the URLs of its relation
    and is populated; a getter whose field is populated sends its one
    request to the cached value. In every case, a field that is populated
    before a getter call has the same value after it. *)
Theorem top_urls_discovered_once
    (f : Client.top_url) (searchParams : params) (timeout : Z)
    (self : Client.t) (w : world S) :
  let run := Client.getter respond f searchParams timeout (self, w) in
  let discovery :=
    resource_request (Client.feedsUrl self) (Client.auth self) GET
                     (PNum 30000) NoBody None 30000 in
  (url_truthy (Client.get_url f self) = false ->
   (exists rest, sent (snd (snd run)) = sent w ++ discovery :: rest) /\
   (forall resp s coll,
      respond discovery (server w) = (inr resp, s) ->
      p_collection (resp_data resp) = Some coll ->
      Client.get_url f (fst (snd run)) =
        UArr (Collection.getLinkRelationUrls coll (Client.relation f)) /\
      url_truthy (Client.get_url f (fst (snd run))) = true)) /\
  (url_truthy (Client.get_url f self) = true ->
   exists r, rq_url r = Client.get_url f self /\
             sent (snd (snd run)) = sent w ++ [r]) /\
  (forall g,
     url_truthy (Client.get_url g self) = true ->
     Client.get_url g (fst (snd run)) = Client.get_url g self).
Proof.
  cbv zeta.
  destruct (getter_fetchRes f searchParams timeout (self, w))
    as (cls & sp & ->).
  cbn [fst].
  pose proof (fetchRes_run (Client.get_url f self) cls sp timeout self w)
    as Hrun.
  cbv zeta in Hrun.
  pose proof (getFeeds_run (PNum 30000) 30000 self w) as [Hsent Hstate].
  cbv zeta in Hsent, Hstate.
  repeat apply conj.
  - intros Hempty. rewrite Hempty in Hrun.
    destruct Hrun as (Hself & rest & Hrest). split.
    + exists rest. rewrite Hrest, Hsent, <- app_assoc. reflexivity.
    + intros resp s coll Hresp Hcoll.
      rewrite Hself,
        (getFeeds_answered (PNum 30000) 30000 self w resp s coll Hresp
                           Hcoll).
      cbn [fst snd].
      destruct (discover_fills coll Client.top_urls self) as [_ Hfill].
      rewrite Hfill, Hempty.
      assert (existsb (Client.top_url_eqb f) Client.top_urls = true) as ->
          by (destruct f; reflexivity).
      split; reflexivity.
  - intros Hfull. rewrite Hfull in Hrun. apply Hrun.
  - intros g Hg.
    destruct (url_truthy (Client.get_url f self)).
    + destruct Hrun as [-> _]. reflexivity.
    + destruct Hrun as [-> _].
      destruct Hstate as [-> | (resp & s & coll & _ & _ & ->)];
        [reflexivity|].
      now apply discover_keeps_populated.
Qed.

End Discovery.

(** C8 (witness). The first [getFiles] of a new client discovers the
    URLs; the next one goes to the cached array and changes nothing. *)
Lemma top_urls_discovered_once_witness :
  let files := UArr ["http://localhost:8000/api/v1/files/"] in
  let nothing := Fixtures.ok (Fixtures.coll [] []) in
  let first := Client.getter Fixtures.scripted Client.FilesUrl PNull 30000
                 (Fixtures.chris,
                  Fixtures.start [Fixtures.ok Fixtures.feeds; nothing]) in
  let again := Client.getter Fixtures.scripted Client.FilesUrl PNull 30000
                 (Fixtures.discovered, Fixtures.start [nothing]) in
  (exists rest,
     sent (snd (snd first)) =
       resource_request (UStr Fixtures.chrisUrl) Fixtures.cube GET
                        (PNum 30000) NoBody None 30000 :: rest) /\
  Client.get_url Client.FilesUrl (fst (snd first)) = files /\
  (exists r, rq_url r = files /\ sent (snd (snd again)) = [r]) /\
  Client.get_url Client.FilesUrl (fst (snd again)) = files.
Proof.
  cbv zeta.
  destruct (@top_urls_discovered_once _ Fixtures.scripted Client.FilesUrl
              PNull 30000 Fixtures.chris
              (Fixtures.start [Fixtures.ok Fixtures.feeds;
                               Fixtures.ok (Fixtures.coll [] [])]))
    as (Hempty & _ & _).
  destruct (Hempty eq_refl) as (Hfirst & Hfilled).
  destruct (Hfilled _ _ Fixtures.feeds eq_refl eq_refl) as (Hfiles & _).
  destruct (@top_urls_discovered_once _ Fixtures.scripted Client.FilesUrl
              PNull 30000 Fixtures.discovered
              (Fixtures.start [Fixtures.ok (Fixtures.coll [] [])]))
    as (_ & Hcached & Hkept).
  repeat apply conj.
  - exact Hfirst.
  - exact Hfiles.
  - exact (Hcached eq_refl).
  - exact (Hkept Client.FilesUrl eq_refl).
Defined.

(** ** The unguarded first item *)

Section ItemCallers.

Variable S : Type.
Variable respond : request -> S -> (failure + response) * S.
Variable makeTemplate : object -> Template.

(** C9. With a collection type other than ['list'],
    [getDataFromCollection] reads [coll.items[0]] without a guard: for a
    non-empty sequence the result's data is the descriptor object of the
    first item and no page flag is set; for an empty sequence the read
    throws a [TypeError]. The callers that pass ['item'] ([createUser],
    [addPlugin], [getUser], [updateUser], [modifyPlugin], [modifyPipeline])
    apply it to the collection of their last response with no check in
    between: once that response has arrived, the promise is what
    [getDataFromCollection] makes of it. *)
Theorem getDataFromCollection_item_unguarded :
  (forall coll collection_type item rest,
     (collection_type =? "list") = false ->
     coll_items coll = item :: rest ->
     StoreClient.getDataFromCollection coll collection_type =
       inr {| StoreClient.data :=
                StoreClient.DataItem (Collection.getItemDescriptors item);
              StoreClient.hasNextPage := None;
              StoreClient.hasPreviousPage := None |}) /\
  (forall coll collection_type,
     (collection_type =? "list") = false ->
     coll_items coll = [] ->
     StoreClient.getDataFromCollection coll collection_type =
       inl (undefined_read "data")) /\
  (forall usersUrl username password email timeout (w : world S) resp s,
     respond (account_request usersUrl username password email timeout)
             (server w) = (inr resp, s) ->
     fst (StoreClient.createUser respond usersUrl username password email
                                 timeout w) = item_result true resp) /\
  (forall self name dockImage descriptorFile publicRepo (w : world S)
          resp s,
     respond (store_post self (UStr (StoreClient.storeUrl self))
                (BodyJson [("name", Str name);
                           ("dock_image", Str dockImage);
                           ("public_repo", Str publicRepo)])
                (Some ("descriptor_file", descriptorFile)))
             (server w) = (inr resp, s) ->
     fst (StoreClient.addPlugin respond self name dockImage descriptorFile
                                publicRepo w) = item_result true resp) /\
  (forall self (w : world S) resp1 s1 coll1 resp s,
     respond (store_get self (UStr (StoreClient.storeUrl self)) PNull)
             (server w) = (inr resp1, s1) ->
     p_collection (resp_data resp1) = Some coll1 ->
     respond (store_get self
                (first_url (Collection.getLinkRelationUrls coll1 "user"))
                PNull) s1 = (inr resp, s) ->
     fst (StoreClient.getUser respond self w) = item_result false resp) /\
  (forall self userInfoObj (w : world S) resp1 s1 coll1 resp s,
     respond (store_get self (UStr (StoreClient.storeUrl self)) PNull)
             (server w) = (inr resp1, s1) ->
     p_collection (resp_data resp1) = Some coll1 ->
     respond (store_put self
                (first_url (Collection.getLinkRelationUrls coll1 "user"))
                (BodyTemplate {| template_data :=
                   [ {| d_name := "email";
                        d_value := get_prop userInfoObj "email" |};
                     {| d_name := "password";
                        d_value := get_prop userInfoObj "password" |} ] |}))
             s1 = (inr resp, s) ->
     fst (StoreClient.updateUser respond self userInfoObj w)
       = item_result false resp) /\
  (forall self id publicRepo newOwner (w : world S) resp1 s1 coll1 item
          rest data resp s,
     respond (store_get self (UStr (StoreClient.storeQueryUrl self))
                (PObj [("id", id)])) (server w) = (inr resp1, s1) ->
     p_collection (resp_data resp1) = Some coll1 ->
     coll_items coll1 = item :: rest ->
     StoreClient.modifyPlugin_data item publicRepo newOwner = inr data ->
     respond (store_put self (UStr (item_href item))
                (StoreClient.encode makeTemplate self data)) s1
       = (inr resp, s) ->
     fst (StoreClient.modifyPlugin respond makeTemplate self id publicRepo
                                   newOwner w) = item_result false resp) /\
  (forall self id data (w : world S) self1 w1 resp1 s1 coll1 item rest
          resp s,
     ensure_pipelines_urls respond (self, w) = (Resolved tt, (self1, w1)) ->
     respond (store_get self1 (UStr (StoreClient.pipelinesQueryUrl self1))
                (PObj [("id", id)])) (server w1) = (inr resp1, s1) ->
     p_collection (resp_data resp1) = Some coll1 ->
     coll_items coll1 = item :: rest ->
     respond (store_put self (UStr (item_href item))
                (StoreClient.encode makeTemplate self1 data)) s1
       = (inr resp, s) ->
     fst (StoreClient.modifyPipeline respond makeTemplate id data (self, w))
       = item_result false resp).
Proof.
  repeat apply conj.
  - intros coll ty item rest Hty Hitems.
    unfold StoreClient.getDataFromCollection. now rewrite Hty, Hitems.
  - intros coll ty Hty Hitems.
    unfold StoreClient.getDataFromCollection. now rewrite Hty, Hitems.
  - intros usersUrl username password email timeout w resp s H.
    unfold StoreClient.createUser, and_then. answered H.
    apply settle_item_result.
  - intros self name dockImage descriptorFile publicRepo w resp s H.
    unfold StoreClient.addPlugin, and_then. answered H.
    apply settle_item_result.
  - intros self w resp1 s1 coll1 resp s H1 Hc1 H2.
    unfold StoreClient.getUser, and_then. answered H1. rewrite Hc1.
    answered H2. apply resolve_unguarded_item_result.
  - intros self userInfoObj w resp1 s1 coll1 resp s H1 Hc1 H2.
    unfold StoreClient.updateUser, and_then. answered H1. rewrite Hc1.
    answered H2. apply resolve_unguarded_item_result.
  - intros self id publicRepo newOwner w resp1 s1 coll1 item rest data resp
      s H1 Hc1 Hitems Hdata H2.
    unfold StoreClient.modifyPlugin, and_then.
    rewrite (@fetchCollection_answered _ respond _ _ _ _ _ _ H1), Hc1.
    cbv beta iota. rewrite Hitems. cbv beta iota. rewrite Hdata.
    answered H2. apply resolve_unguarded_item_result.
  - intros self id data w self1 w1 resp1 s1 coll1 item rest resp s He H1 Hc1
      Hitems H2.
    unfold StoreClient.modifyPipeline, and_then, this, in_world.
    unfold ensure_pipelines_urls in He. cbn [fst snd] in He |- *.
    assert (Hpre :
      (if StoreClient.pipelinesQueryUrl self =? ""
       then StoreClient.setPipelinesUrls respond
       else resolve tt) (self, w) = (Resolved tt, (self1, w1))).
    { destruct (StoreClient.pipelinesQueryUrl self =? ""); exact He. }
    rewrite Hpre. cbn [fst snd].
    rewrite (@fetchCollection_answered _ respond _ _ _ _ _ _ H1), Hc1.
    cbv beta iota. rewrite Hitems. cbv beta iota.
    answered H2. unfold item_result.
    destruct (StoreClient.getDataFromResponse resp "item"); reflexivity.
Qed.

End ItemCallers.

(** C9 (witness). A response with one item gives the item's descriptors;
    a response with an empty [items] makes the read throw, which rejects
    the promise of [createUser] and [addPlugin] and leaves the promise of
    the task-based callers unsettled. *)
Lemma getDataFromCollection_item_unguarded_witness :
  let item := Fixtures.plugin 1 [] in
  let full := Fixtures.coll [] [item] in
  let empty := Fixtures.coll [] [] in
  let root := Fixtures.coll
    [ {| link_rel := "user"; link_href := "http://localhost:8010/u/1/" |};
      {| link_rel := "pipelines";
         link_href := "http://localhost:8010/pipelines/" |} ] [] in
  let found := {| StoreClient.data :=
                    StoreClient.DataItem (Collection.getItemDescriptors item);
                  StoreClient.hasNextPage := None;
                  StoreClient.hasPreviousPage := None |} in
  StoreClient.getDataFromCollection full "item" = inr found /\
  StoreClient.getDataFromCollection empty "item"
    = inl (undefined_read "data") /\
  fst (StoreClient.createUser Fixtures.scripted "http://localhost:8010/users/"
         "cube" "cube1234" "cube@babymri.org" 30000
         (Fixtures.start [Fixtures.ok empty]))
    = Rejected (undefined_read "data") /\
  fst (StoreClient.addPlugin Fixtures.scripted Fixtures.store "simplefsapp"
         "fnndsc/pl-simplefsapp" "{}" "https://github.com/FNNDSC/a"
         (Fixtures.start [Fixtures.ok full]))
    = Resolved found /\
  fst (StoreClient.getUser Fixtures.scripted Fixtures.store
         (Fixtures.start [Fixtures.ok root; Fixtures.ok empty]))
    = Unsettled (undefined_read "data") /\
  fst (StoreClient.updateUser Fixtures.scripted Fixtures.store
         [("email", Str "cube@babymri.org")]
         (Fixtures.start [Fixtures.ok root; Fixtures.ok full]))
    = Resolved found /\
  fst (StoreClient.modifyPlugin Fixtures.scripted Collection.makeTemplate
         Fixtures.store (Num 1) "" "cube"
         (Fixtures.start [Fixtures.ok full; Fixtures.ok empty]))
    = Unsettled (undefined_read "data") /\
  fst (StoreClient.modifyPipeline Fixtures.scripted Collection.makeTemplate
         (Num 1) [("name", Str "p")]
         (Fixtures.store,
          Fixtures.start [Fixtures.ok root; Fixtures.ok full;
                          Fixtures.ok empty]))
    = Unsettled (undefined_read "data").
Proof.
  cbv zeta.
  destruct (@getDataFromCollection_item_unguarded _ Fixtures.scripted
              Collection.makeTemplate)
    as (Hfirst & Hnone & HcreateUser & HaddPlugin & HgetUser & HupdateUser
        & HmodifyPlugin & HmodifyPipeline).
  repeat apply conj.
  - eapply Hfirst; reflexivity.
  - eapply Hnone; reflexivity.
  - etransitivity; [eapply HcreateUser; reflexivity | reflexivity].
  - etransitivity; [eapply HaddPlugin; reflexivity | reflexivity].
  - etransitivity; [eapply HgetUser; reflexivity | reflexivity].
  - etransitivity; [eapply HupdateUser; reflexivity | reflexivity].
  - etransitivity; [eapply HmodifyPlugin; reflexivity | reflexivity].
  - etransitivity;
      [eapply HmodifyPipeline; first [reflexivity | cbv; reflexivity]
      | reflexivity].
Defined.

(** ** The data of [modifyPlugin] *)

Section ModifyPlugin.

Variable S : Type.
Variable respond : request -> S -> (failure + response) * S.
Variable makeTemplate : object -> Template.

(** C10. When [modifyPlugin] finds an item with the given id, the data
    object that goes into the PUT body has [public_repo] equal to the
    argument when that is non-empty and otherwise to the value of the
    [public_repo] descriptor of the item just fetched, and it has an
    [owner] member, equal to [newOwner], exactly when [newOwner] is
    non-empty; the PUT goes to the item's [href] with the template built
    from that object. *)
Theorem modifyPlugin_put_data
    (self : StoreClient.t) (id : jsval) (publicRepo newOwner : string)
    (w : world S) (resp : response) (s : S) (coll : Collection)
    (item : Item) (rest : list Item) (d : Descriptor)
    (ds : list Descriptor) :
  let lookup :=
    store_get self (UStr (StoreClient.storeQueryUrl self))
              (PObj [("id", id)]) in
  let data :=
    ("public_repo",
     if publicRepo =? "" then d_value d else Str publicRepo)
    :: (if newOwner =? "" then [] else [("owner", Str newOwner)]) in
  StoreClient.contentType self = StoreClient.collection_json ->
  respond lookup (server w) = (inr resp, s) ->
  p_collection (resp_data resp) = Some coll ->
  coll_items coll = item :: rest ->
  (publicRepo = "" ->
   filter (fun d => d_name d =? "public_repo") (item_data item) = d :: ds) ->
  sent (snd (StoreClient.modifyPlugin respond makeTemplate self id
                                      publicRepo newOwner w))
    = sent w ++ [lookup;
                 store_put self (UStr (item_href item))
                           (BodyTemplate (makeTemplate data))] /\
  has_prop data "owner" = negb (newOwner =? "").
Proof.
  intros lookup data Hct Hresp Hcoll Hitems Hrepo.
  split; [|subst data; destruct (newOwner =? ""); reflexivity].
  unfold StoreClient.modifyPlugin, and_then.
  rewrite (@fetchCollection_answered _ respond _ _ _ _ _ _ Hresp), Hcoll.
  cbv beta iota. rewrite Hitems. cbv beta iota.
  assert (Hdata : StoreClient.modifyPlugin_data item publicRepo newOwner
                  = inr data).
  { unfold StoreClient.modifyPlugin_data, StoreClient.first_value.
    subst data. destruct (publicRepo =? "") eqn:E; simpl.
    - apply String.eqb_eq in E. rewrite (Hrepo E). simpl.
      destruct (newOwner =? ""); reflexivity.
    - destruct (newOwner =? ""); reflexivity. }
  rewrite Hdata.
  unfold StoreClient.encode. rewrite Hct, String.eqb_refl.
  unfold Request_put.
  match goal with
  | |- context [send respond ?r ?w0] =>
      pose proof (@sent_send _ respond r w0) as Hsent;
      destruct (send respond r w0) as [[resp2|e|e] w2]
  end; simpl in Hsent |- *;
    try (destruct (StoreClient.getDataFromResponse resp2 "item"); simpl);
    rewrite Hsent; unfold logged; simpl; rewrite <- app_assoc; reflexivity.
Qed.

End ModifyPlugin.

(** C10 (witness). [modifyPlugin(1)] with both optional arguments empty
    puts the repository of the fetched plugin and no owner. *)
Lemma modifyPlugin_put_data_witness :
  let item := Fixtures.plugin 1 [] in
  let answers := [Fixtures.ok (Fixtures.coll [] [item]);
                  Fixtures.ok (Fixtures.coll [] [item])] in
  let data := [("public_repo", Str "https://github.com/FNNDSC/a")] in
  sent (snd (StoreClient.modifyPlugin Fixtures.scripted
               Collection.makeTemplate Fixtures.store (Num 1) "" ""
               (Fixtures.start answers)))
    = [store_get Fixtures.store
         (UStr (StoreClient.storeQueryUrl Fixtures.store))
         (PObj [("id", Num 1)]);
       store_put Fixtures.store (UStr (item_href item))
         (BodyTemplate (Collection.makeTemplate data))] /\
  has_prop data "owner" = false.
Proof.
  cbv zeta.
  eapply (@modifyPlugin_put_data _ Fixtures.scripted Collection.makeTemplate
           Fixtures.store (Num 1) "" ""
           (Fixtures.start [Fixtures.ok (Fixtures.coll []
                                           [Fixtures.plugin 1 []]);
                            Fixtures.ok (Fixtures.coll []
                                           [Fixtures.plugin 1 []])])
           _ _ (Fixtures.coll [] [Fixtures.plugin 1 []])
           (Fixtures.plugin 1 []) []
           {| d_name := "public_repo";
              d_value := Str "https://github.com/FNNDSC/a" |} []);
    reflexivity.
Defined.

(** * Further properties of the store client *)

(** As [answered], for statements that name the deletion request or the
    transport's exception. *)
Ltac answer H := unfold transport_error, store_delete in *; answered H.

Section StoreEdges.

Variable S : Type.
Variable respond : request -> S -> (failure + response) * S.
Variable makeTemplate : object -> Template.

Lemma fetchCollection_failed (self : StoreClient.t) (u : jsurl)
    (searchParams : params) (w : world S) (f : failure) (s : S) :
  respond (store_get self u searchParams) (server w) = (inl f, s) ->
  StoreClient._fetchCollection respond self u searchParams w =
    (Rejected (transport_error f (store_get self u searchParams)),
     logged w s [store_get self u searchParams]).
Proof.
  intros H. unfold StoreClient._fetchCollection, and_then. now answer H.
Qed.

(** A lookup by id that the transport fails on rejects the promise of the
    method with the transport's [RequestException], and the method sends
    nothing else: [_getItemResourceData], [_getResourceRelatedListData],
    [_removeItemResource] and [modifyPlugin]. *)
Theorem failed_lookup_rejects
    (self : StoreClient.t) (resQueryUrl : string) (id : jsval)
    (listRelName : string) (params : params) (publicRepo newOwner : string)
    (w : world S) (f : failure) (s : S) :
  let lookup := store_get self (UStr resQueryUrl) (PObj [("id", id)]) in
  respond lookup (server w) = (inl f, s) ->
  StoreClient._getItemResourceData respond self resQueryUrl id w
    = (Rejected (transport_error f lookup), logged w s [lookup]) /\
  StoreClient._getResourceRelatedListData respond self resQueryUrl id
                                          listRelName params w
    = (Rejected (transport_error f lookup), logged w s [lookup]) /\
  StoreClient._removeItemResource respond self resQueryUrl id w
    = (Rejected (transport_error f lookup), logged w s [lookup]) /\
  (resQueryUrl = StoreClient.storeQueryUrl self ->
   StoreClient.modifyPlugin respond makeTemplate self id publicRepo
                            newOwner w
     = (Rejected (transport_error f lookup), logged w s [lookup])).
Proof.
  intros lookup H. subst lookup. repeat apply conj.
  - unfold StoreClient._getItemResourceData, and_then.
    now rewrite (fetchCollection_failed _ _ _ _ _ _ H).
  - unfold StoreClient._getResourceRelatedListData, and_then.
    now rewrite (fetchCollection_failed _ _ _ _ _ _ H).
  - unfold StoreClient._removeItemResource, and_then. answer H.
    reflexivity.
  - intros ->. unfold StoreClient.modifyPlugin, and_then.
    now rewrite (fetchCollection_failed _ _ _ _ _ _ H).
Qed.

(** A lookup by id that succeeds with zero items makes
    [_getResourceRelatedListData], [_removeItemResource] and [modifyPlugin]
    reject with the [RequestException] "Could not find resource with id: "
    followed by the id; no list is fetched, nothing is deleted and nothing
    is put. *)
Theorem nothing_found_nothing_written
    (self : StoreClient.t) (resQueryUrl : string) (id : jsval)
    (listRelName : string) (params : params) (publicRepo newOwner : string)
    (w : world S) (resp : response) (s : S) (coll : Collection) :
  let lookup := store_get self (UStr resQueryUrl) (PObj [("id", id)]) in
  respond lookup (server w) = (inr resp, s) ->
  p_collection (resp_data resp) = Some coll ->
  coll_items coll = [] ->
  StoreClient._getResourceRelatedListData respond self resQueryUrl id
                                          listRelName params w
    = (Rejected (StoreClient.not_found id), logged w s [lookup]) /\
  StoreClient._removeItemResource respond self resQueryUrl id w
    = (Rejected (StoreClient.not_found id), logged w s [lookup]) /\
  (resQueryUrl = StoreClient.storeQueryUrl self ->
   StoreClient.modifyPlugin respond makeTemplate self id publicRepo
                            newOwner w
     = (Rejected (StoreClient.not_found id), logged w s [lookup])).
Proof.
  intros lookup H Hcoll Hitems. subst lookup. repeat apply conj.
  - unfold StoreClient._getResourceRelatedListData, and_then.
    rewrite (fetchCollection_answered _ _ _ _ _ _ _ _ H), Hcoll.
    cbv beta iota. now rewrite Hitems.
  - unfold StoreClient._removeItemResource, and_then. answer H.
    rewrite Hcoll. now rewrite Hitems.
  - intros ->. unfold StoreClient.modifyPlugin, and_then.
    rewrite (fetchCollection_answered _ _ _ _ _ _ _ _ H), Hcoll.
    cbv beta iota. now rewrite Hitems.
Qed.

(** When the lookup of [_removeItemResource] finds items, the DELETE goes
    to the [href] of the first of them; the promise resolves (to nothing)
    when the deletion is answered and rejects with the transport's
    exception when it is not. *)
Theorem removeItemResource_deletes_first
    (self : StoreClient.t) (resQueryUrl : string) (id : jsval)
    (w : world S) (resp : response) (s : S) (coll : Collection)
    (item : Item) (rest : list Item) :
  let lookup := store_get self (UStr resQueryUrl) (PObj [("id", id)]) in
  let deletion := store_delete self (UStr (item_href item)) in
  respond lookup (server w) = (inr resp, s) ->
  p_collection (resp_data resp) = Some coll ->
  coll_items coll = item :: rest ->
  StoreClient._removeItemResource respond self resQueryUrl id w =
    (match fst (respond deletion s) with
     | inr _ => Resolved tt
     | inl f => Rejected (transport_error f deletion)
     end,
     logged w (snd (respond deletion s)) [lookup; deletion]).
Proof.
  intros lookup deletion H Hcoll Hitems. subst lookup deletion.
  destruct (respond (store_delete self (UStr (item_href item))) s)
    as [[f|resp2] s2] eqn:Hdel;
    unfold StoreClient._removeItemResource, and_then; answer H;
    rewrite Hcoll; rewrite Hitems; answer Hdel;
    unfold logged; simpl; now rewrite <- app_assoc.
Qed.

(** [modifyPlugin] without a [publicRepo] argument, on an item that has no
    [public_repo] descriptor: reading [.value] of the missing descriptor
    throws inside the [try] block, so the promise rejects with a
    [TypeError] and no PUT is sent. *)
Theorem modifyPlugin_without_descriptor
    (self : StoreClient.t) (id : jsval) (newOwner : string) (w : world S)
    (resp : response) (s : S) (coll : Collection) (item : Item)
    (rest : list Item) :
  let lookup := store_get self (UStr (StoreClient.storeQueryUrl self))
                          (PObj [("id", id)]) in
  respond lookup (server w) = (inr resp, s) ->
  p_collection (resp_data resp) = Some coll ->
  coll_items coll = item :: rest ->
  (forall d, In d (item_data item) -> d_name d <> "public_repo") ->
  StoreClient.modifyPlugin respond makeTemplate self id "" newOwner w =
    (Rejected (undefined_read "value"), logged w s [lookup]).
Proof.
  intros lookup H Hcoll Hitems Hno. subst lookup.
  unfold StoreClient.modifyPlugin, and_then.
  rewrite (fetchCollection_answered _ _ _ _ _ _ _ _ H), Hcoll.
  cbv beta iota. rewrite Hitems. cbv beta iota.
  assert (Hnone : filter (fun d => d_name d =? "public_repo")
                         (item_data item) = []).
  { induction (item_data item) as [|d ds IH]; [reflexivity|]. simpl.
    destruct (d_name d =? "public_repo") eqn:E.
    - apply String.eqb_eq in E. exfalso. apply (Hno d); simpl; auto.
    - apply IH. intros d' Hin. apply Hno. simpl. auto. }
  unfold StoreClient.modifyPlugin_data, StoreClient.first_value.
  simpl. now rewrite Hnone.
Qed.

(** The two success paths of the reads by id. [_getItemResourceData]
    resolves to the descriptors of the first item of the answer, whatever
    follows it. [_getResourceRelatedListData] resolves to the list result
    of the collection behind the first link of the relation: one descriptor
    object per item, with the page flags of that collection. *)
Theorem reads_by_id_resolve
    (self : StoreClient.t) (resQueryUrl : string) (id : jsval)
    (listRelName : string) (params : params) (w : world S)
    (resp : response) (s : S) (coll : Collection) (item : Item)
    (rest : list Item) :
  let lookup := store_get self (UStr resQueryUrl) (PObj [("id", id)]) in
  respond lookup (server w) = (inr resp, s) ->
  p_collection (resp_data resp) = Some coll ->
  coll_items coll = item :: rest ->
  StoreClient._getItemResourceData respond self resQueryUrl id w =
    (Resolved {| StoreClient.data :=
                   StoreClient.DataItem (Collection.getItemDescriptors item);
                 StoreClient.hasNextPage := None;
                 StoreClient.hasPreviousPage := None |},
     logged w s [lookup]) /\
  (forall link links resp2 s2 coll2,
     Collection.getLinkRelationUrls item listRelName = link :: links ->
     respond (store_get self (UStr link) params) s = (inr resp2, s2) ->
     p_collection (resp_data resp2) = Some coll2 ->
     StoreClient._getResourceRelatedListData respond self resQueryUrl id
                                             listRelName params w =
       (Resolved {| StoreClient.data :=
                      StoreClient.DataList
                        (map Collection.getItemDescriptors
                             (coll_items coll2));
                    StoreClient.hasNextPage :=
                      Some (StoreClient.nonempty
                              (Collection.getLinkRelationUrls coll2 "next"));
                    StoreClient.hasPreviousPage :=
                      Some (StoreClient.nonempty
                              (Collection.getLinkRelationUrls
                                 coll2 "previous")) |},
        logged w s2 [lookup; store_get self (UStr link) params])).
Proof.
  intros lookup H Hcoll Hitems. subst lookup. split.
  - unfold StoreClient._getItemResourceData, and_then.
    rewrite (fetchCollection_answered _ _ _ _ _ _ _ _ H), Hcoll.
    unfold settle, defined, StoreClient.getDataFromCollection.
    now rewrite Hitems.
  - intros link links resp2 s2 coll2 Hlinks H2 Hcoll2.
    unfold StoreClient._getResourceRelatedListData, and_then.
    rewrite (fetchCollection_answered _ _ _ _ _ _ _ _ H), Hcoll.
    cbv beta iota. rewrite Hitems. cbv beta iota. rewrite Hlinks.
    rewrite (fetchCollection_answered _ respond self (UStr link) params
               (logged w s _) resp2 s2 H2), Hcoll2.
    unfold logged. simpl. now rewrite <- app_assoc.
Qed.

(** [getPlugins] queries [storeQueryUrl] when it is given search parameters
    and [storeUrl] when it is not, with one request, and resolves to one
    descriptor object per item of the answer, in the order of the
    answer. *)
Theorem getPlugins_one_request
    (self : StoreClient.t) (searchParams : params) (w : world S)
    (resp : response) (s : S) (coll : Collection) :
  let target := if params_truthy searchParams
                then StoreClient.storeQueryUrl self
                else StoreClient.storeUrl self in
  let fetch := store_get self (UStr target) searchParams in
  respond fetch (server w) = (inr resp, s) ->
  p_collection (resp_data resp) = Some coll ->
  exists r,
    StoreClient.getPlugins respond self searchParams w
      = (Resolved r, logged w s [fetch]) /\
    StoreClient.data r =
      StoreClient.DataList (map Collection.getItemDescriptors
                                (coll_items coll)).
Proof.
  intros target fetch H Hcoll. subst target fetch.
  unfold StoreClient.getPlugins, StoreClient._getListResourceData, and_then.
  rewrite (fetchCollection_answered _ _ _ _ _ _ _ _ H), Hcoll.
  eexists. split; reflexivity.
Qed.

(** [getUser] and [updateUser] do not check that the entry collection has a
    ['user'] link: without one, [userUrls[0]] is [undefined] and the second
    request is sent all the same, to that URL. *)
Theorem user_requests_without_user_link
    (self : StoreClient.t) (userInfoObj : object) (w : world S)
    (resp : response) (s : S) (coll : Collection) :
  let entry := store_get self (UStr (StoreClient.storeUrl self)) PNull in
  respond entry (server w) = (inr resp, s) ->
  p_collection (resp_data resp) = Some coll ->
  (forall l, In l (coll_links coll) -> link_rel l <> "user") ->
  sent (snd (StoreClient.getUser respond self w))
    = sent w ++ [entry; store_get self UUndefined PNull] /\
  exists b,
    sent (snd (StoreClient.updateUser respond self userInfoObj w))
      = sent w ++ [entry; store_put self UUndefined b].
Proof.
  intros entry H Hcoll Hno. subst entry.
  pose proof (proj2 (@getLinkRelationUrls_nil Collection Linked_Collection
                       coll "user") Hno) as Hnil.
  split.
  - unfold StoreClient.getUser, and_then.
    rewrite (store_get_answered _ respond _ _ _ _ _ _ H), Hcoll, Hnil.
    simpl first_url. unfold Request_get.
    match goal with
    | |- context [send respond ?r ?w0] =>
        pose proof (@sent_send _ respond r w0) as Hsent;
        destruct (send respond r w0) as [[resp2|e|e] w2]
    end; simpl in Hsent |- *;
      try (destruct (StoreClient.getDataFromResponse resp2 "item"); simpl);
      rewrite Hsent, <- app_assoc; reflexivity.
  - eexists. unfold StoreClient.updateUser, and_then.
    rewrite (store_get_answered _ respond _ _ _ _ _ _ H), Hcoll, Hnil.
    simpl first_url. unfold Request_put.
    match goal with
    | |- context [send respond ?r ?w0] =>
        pose proof (@sent_send _ respond r w0) as Hsent;
        destruct (send respond r w0) as [[resp2|e|e] w2]
    end; simpl in Hsent |- *;
      try (destruct (StoreClient.getDataFromResponse resp2 "item"); simpl);
      rewrite Hsent, <- app_assoc; reflexivity.
Qed.

End StoreEdges.

(** [failed_lookup_rejects] on a scripted service. *)
Lemma failed_lookup_rejects_witness :
  let q := StoreClient.storeQueryUrl Fixtures.store in
  let w := Fixtures.start [Fixtures.network_error] in
  let lookup := store_get Fixtures.store (UStr q) (PObj [("id", Num 1)]) in
  let f := {| f_message := "Network Error"; f_response := None |} in
  StoreClient._getItemResourceData Fixtures.scripted Fixtures.store q
                                   (Num 1) w
    = (Rejected (transport_error f lookup), logged w [] [lookup]) /\
  StoreClient._getResourceRelatedListData Fixtures.scripted Fixtures.store
                                          q (Num 1) "parameters" PNull w
    = (Rejected (transport_error f lookup), logged w [] [lookup]) /\
  StoreClient._removeItemResource Fixtures.scripted Fixtures.store q
                                  (Num 1) w
    = (Rejected (transport_error f lookup), logged w [] [lookup]) /\
  StoreClient.modifyPlugin Fixtures.scripted Collection.makeTemplate
                           Fixtures.store (Num 1) "" "" w
    = (Rejected (transport_error f lookup), logged w [] [lookup]).
Proof.
  cbv zeta.
  destruct (@failed_lookup_rejects _ Fixtures.scripted
              Collection.makeTemplate Fixtures.store
              (StoreClient.storeQueryUrl Fixtures.store) (Num 1)
              "parameters" PNull "" ""
              (Fixtures.start [Fixtures.network_error])
              {| f_message := "Network Error"; f_response := None |} []
              eq_refl)
    as (Hitem & Hrelated & Hremove & Hmodify).
  repeat apply conj;
    [exact Hitem | exact Hrelated | exact Hremove | exact (Hmodify eq_refl)].
Defined.

(** [nothing_found_nothing_written] on a scripted service. *)
Lemma nothing_found_nothing_written_witness :
  let q := StoreClient.storeQueryUrl Fixtures.store in
  let w := Fixtures.start [Fixtures.ok (Fixtures.coll [] [])] in
  let lookup := store_get Fixtures.store (UStr q) (PObj [("id", Num 7)]) in
  StoreClient._getResourceRelatedListData Fixtures.scripted Fixtures.store
                                          q (Num 7) "parameters" PNull w
    = (Rejected (StoreClient.not_found (Num 7)), logged w [] [lookup]) /\
  StoreClient._removeItemResource Fixtures.scripted Fixtures.store q
                                  (Num 7) w
    = (Rejected (StoreClient.not_found (Num 7)), logged w [] [lookup]) /\
  StoreClient.modifyPlugin Fixtures.scripted Collection.makeTemplate
                           Fixtures.store (Num 7) "" "cube" w
    = (Rejected (StoreClient.not_found (Num 7)), logged w [] [lookup]).
Proof.
  cbv zeta.
  destruct (@nothing_found_nothing_written _ Fixtures.scripted
              Collection.makeTemplate Fixtures.store
              (StoreClient.storeQueryUrl Fixtures.store) (Num 7)
              "parameters" PNull "" "cube"
              (Fixtures.start [Fixtures.ok (Fixtures.coll [] [])])
              _ [] (Fixtures.coll [] []) eq_refl eq_refl eq_refl)
    as (Hrelated & Hremove & Hmodify).
  repeat apply conj;
    [exact Hrelated | exact Hremove | exact (Hmodify eq_refl)].
Defined.

(** [removeItemResource_deletes_first] on a scripted service. *)
Lemma removeItemResource_deletes_first_witness :
  let q := StoreClient.storeQueryUrl Fixtures.store in
  let found := Fixtures.coll [] [Fixtures.plugin 1 []; Fixtures.plugin 2 []]
  in
  let w := Fixtures.start [Fixtures.ok found;
                           Fixtures.ok (Fixtures.coll [] [])] in
  StoreClient.removePlugin Fixtures.scripted Fixtures.store (Num 1) w
    = (Resolved tt,
       logged w []
         [store_get Fixtures.store (UStr q) (PObj [("id", Num 1)]);
          store_delete Fixtures.store
            (UStr (item_href (Fixtures.plugin 1 [])))]).
Proof.
  cbv zeta.
  exact (@removeItemResource_deletes_first _ Fixtures.scripted
           Fixtures.store (StoreClient.storeQueryUrl Fixtures.store)
           (Num 1)
           (Fixtures.start
              [Fixtures.ok (Fixtures.coll [] [Fixtures.plugin 1 [];
                                              Fixtures.plugin 2 []]);
               Fixtures.ok (Fixtures.coll [] [])])
           _ _ _ (Fixtures.plugin 1 []) [Fixtures.plugin 2 []]
           eq_refl eq_refl eq_refl).
Defined.

(** [modifyPlugin_without_descriptor] on a scripted service. *)
Lemma modifyPlugin_without_descriptor_witness :
  let w := Fixtures.start [Fixtures.ok (Fixtures.coll [] [Fixtures.bare 3])]
  in
  StoreClient.modifyPlugin Fixtures.scripted Collection.makeTemplate
                           Fixtures.store (Num 3) "" "cube" w
    = (Rejected (undefined_read "value"),
       logged w []
         [store_get Fixtures.store
            (UStr (StoreClient.storeQueryUrl Fixtures.store))
            (PObj [("id", Num 3)])]).
Proof.
  cbv zeta.
  apply (@modifyPlugin_without_descriptor _ Fixtures.scripted
           Collection.makeTemplate Fixtures.store (Num 3) "cube"
           (Fixtures.start [Fixtures.ok (Fixtures.coll [] [Fixtures.bare 3])])
           _ [] (Fixtures.coll [] [Fixtures.bare 3]) (Fixtures.bare 3) []
           eq_refl eq_refl eq_refl).
  simpl. intros d [<- | []]. discriminate.
Defined.

(** [reads_by_id_resolve] on a scripted service. *)
Lemma reads_by_id_resolve_witness :
  let q := StoreClient.storeQueryUrl Fixtures.store in
  let parameters :=
    {| link_rel := "parameters";
       link_href := "http://localhost:8010/api/v1/1/parameters/" |} in
  let item := Fixtures.plugin 1 [parameters] in
  let more := Fixtures.coll
    [ {| link_rel := "next";
         link_href := "http://localhost:8010/api/v1/1/parameters/?offset=2"
      |} ] [Fixtures.bare 11; Fixtures.bare 12] in
  let w := Fixtures.start [Fixtures.ok (Fixtures.coll [] [item;
                                                         Fixtures.bare 2]);
                           Fixtures.ok more] in
  fst (StoreClient.getPlugin Fixtures.scripted Fixtures.store (Num 1) w)
    = Resolved {| StoreClient.data :=
                    StoreClient.DataItem (Collection.getItemDescriptors item);
                  StoreClient.hasNextPage := None;
                  StoreClient.hasPreviousPage := None |} /\
  fst (StoreClient.getPluginParameters Fixtures.scripted Fixtures.store
         (Num 1) (PObj [("limit", Num 2)]) w)
    = Resolved {| StoreClient.data :=
                    StoreClient.DataList
                      [Collection.getItemDescriptors (Fixtures.bare 11);
                       Collection.getItemDescriptors (Fixtures.bare 12)];
                  StoreClient.hasNextPage := Some true;
                  StoreClient.hasPreviousPage := Some false |}.
Proof.
  cbv zeta.
  destruct (@reads_by_id_resolve _ Fixtures.scripted Fixtures.store
              (StoreClient.storeQueryUrl Fixtures.store) (Num 1)
              "parameters" (PObj [("limit", Num 2)])
              (Fixtures.start
                 [Fixtures.ok (Fixtures.coll []
                    [Fixtures.plugin 1
                       [ {| link_rel := "parameters";
                            link_href :=
                              "http://localhost:8010/api/v1/1/parameters/"
                         |} ];
                     Fixtures.bare 2]);
                  Fixtures.ok (Fixtures.coll
                    [ {| link_rel := "next";
                         link_href :=
                  "http://localhost:8010/api/v1/1/parameters/?offset=2" |} ]
                    [Fixtures.bare 11; Fixtures.bare 12])])
              _ _ _ _ _ eq_refl eq_refl eq_refl)
    as (Hitem & Hrelated).
  split.
  - exact (f_equal fst Hitem).
  - exact (f_equal fst (Hrelated _ _ _ _ _ eq_refl eq_refl eq_refl)).
Defined.

(** [getPlugins_one_request] on a scripted service. *)
Lemma getPlugins_one_request_witness :
  let found := Fixtures.coll [] [Fixtures.plugin 1 []; Fixtures.plugin 2 []]
  in
  let searchParams := PObj [("name", Str "simple")] in
  exists r,
    StoreClient.getPlugins Fixtures.scripted Fixtures.store searchParams
                           (Fixtures.start [Fixtures.ok found])
      = (Resolved r,
         logged (Fixtures.start [Fixtures.ok found]) []
           [store_get Fixtures.store
              (UStr "http://localhost:8010/api/v1/search/") searchParams])
    /\ StoreClient.data r =
         StoreClient.DataList
           [Collection.getItemDescriptors (Fixtures.plugin 1 []);
            Collection.getItemDescriptors (Fixtures.plugin 2 [])].
Proof.
  cbv zeta.
  exact (@getPlugins_one_request _ Fixtures.scripted Fixtures.store
           (PObj [("name", Str "simple")])
           (Fixtures.start
              [Fixtures.ok (Fixtures.coll [] [Fixtures.plugin 1 [];
                                              Fixtures.plugin 2 []])])
           _ [] _ eq_refl eq_refl).
Defined.

(** [user_requests_without_user_link] on a scripted service. *)
Lemma user_requests_without_user_link_witness :
  let w := Fixtures.start [Fixtures.ok (Fixtures.coll [] []);
                           Fixtures.network_error] in
  let entry := store_get Fixtures.store (UStr Fixtures.storeUrl) PNull in
  sent (snd (StoreClient.getUser Fixtures.scripted Fixtures.store w))
    = [entry; store_get Fixtures.store UUndefined PNull] /\
  exists b,
    sent (snd (StoreClient.updateUser Fixtures.scripted Fixtures.store
                 [("email", Str "cube@babymri.org")] w))
      = [entry; store_put Fixtures.store UUndefined b].
Proof.
  cbv zeta.
  apply (@user_requests_without_user_link _ Fixtures.scripted Fixtures.store
           [("email", Str "cube@babymri.org")]
           (Fixtures.start [Fixtures.ok (Fixtures.coll [] []);
                            Fixtures.network_error])
           _ [Fixtures.network_error] (Fixtures.coll [] [])
           eq_refl eq_refl).
  simpl. intros l [].
Defined.

(** ** What a method keeps of its object *)

Section Keeping.

Context {O W : Type}.
Variable Q : O -> Prop.
Variable P : O -> O -> Prop.
Hypothesis P_refl : forall o, P o o.
Hypothesis P_trans : forall a b c, P a b -> P b c -> P a c.
Hypothesis Q_kept : forall a b, Q a -> P a b -> Q b.

Lemma keeps_in_world A (m : async W A) :
  keeps_if Q P (in_world (O := O) m).
Proof.
  intros [o w] _. rewrite in_world_run. apply P_refl.
Qed.

Lemma keeps_resolve A (a : A) : keeps_if Q P (resolve (St := O * W) a).
Proof. intros st _. apply P_refl. Qed.

Lemma keeps_reject A (e : exn) :
  keeps_if Q P (reject (St := O * W) (A := A) e).
Proof. intros st _. apply P_refl. Qed.

Lemma keeps_settle A (r : exn + A) :
  keeps_if Q P (settle (St := O * W) r).
Proof. intros st _. destruct r; apply P_refl. Qed.

Lemma keeps_resolve_unguarded A (r : exn + A) :
  keeps_if Q P (resolve_unguarded (St := O * W) r).
Proof. intros st _. destruct r; apply P_refl. Qed.

Lemma keeps_and_then A B (m : async (O * W) A) (k : A -> async (O * W) B) :
  keeps_if Q P m -> (forall a, keeps_if Q P (k a)) ->
  keeps_if Q P (and_then m k).
Proof.
  intros Hm Hk st HQ. unfold and_then.
  specialize (Hm st HQ).
  destruct (m st) as [[a|e|e] st'] eqn:E; simpl in *; try exact Hm.
  apply (P_trans _ _ _ Hm). apply Hk. apply (Q_kept _ _ HQ Hm).
Qed.

(** [self <- this ;; k self]: the continuation may use that [self] is the
    object it runs on. *)
Lemma keeps_this_then B (k : O -> async (O * W) B) :
  (forall st, Q (fst st) -> P (fst st) (fst (snd (k (fst st) st)))) ->
  keeps_if Q P (and_then this k).
Proof. intros Hk st HQ. unfold and_then, this. apply Hk, HQ. Qed.

Lemma keeps_forget A (m : async (O * W) A) :
  keeps_if Q P m -> keeps_if Q P (forget m).
Proof.
  intros Hm st HQ. specialize (Hm st HQ). unfold forget.
  now destruct (m st) as [[a|e|e] st'].
Qed.

End Keeping.

(** ** The pipeline URLs of the store client *)

Lemma in_world_state {O W A} (m : async W A) (st : O * W) :
  fst (snd (in_world m st)) = fst st.
Proof. unfold in_world. now destruct (m (snd st)). Qed.

Lemma keeps_at {O W A} (Q : O -> Prop) (P : O -> O -> Prop)
    (m : async (O * W) A) (st : O * W) :
  Q (fst st) -> keeps_if Q P m -> P (fst st) (fst (snd (m st))).
Proof. intros HQ Hm. now apply Hm. Qed.

Lemma same_settings_refl (a : StoreClient.t) : same_settings a a.
Proof. repeat split. Qed.

Lemma same_settings_trans (a b c : StoreClient.t) :
  same_settings a b -> same_settings b c -> same_settings a c.
Proof.
  unfold same_settings. intros (?&?&?&?&?) (?&?&?&?&?).
  repeat split; congruence.
Qed.

Lemma append_search_nonempty (a : string) : (a ++ "search/" =? "") = false.
Proof. destruct a; reflexivity. Qed.

(** Side conditions of the [keeps_if] lemmas for the two relations used
    below. *)
Ltac keeps_side :=
  first [ exact same_settings_refl
        | exact same_settings_trans
        | exact (fun (a b : StoreClient.t) (_ : True) (_ : same_settings a b)
                 => I)
        | exact (@eq_refl StoreClient.t)
        | exact (@eq_trans StoreClient.t)
        | (intros ? ? ? <-; assumption) ].

(** Decomposition of a method into the steps that [keeps_if] is known
    for. *)
Ltac keeps_steps :=
  repeat first
    [ apply keeps_in_world; solve [keeps_side]
    | apply keeps_resolve; solve [keeps_side]
    | apply keeps_reject; solve [keeps_side]
    | apply keeps_settle; solve [keeps_side]
    | apply keeps_resolve_unguarded; solve [keeps_side]
    | apply keeps_forget
    | assumption
    | match goal with
      | |- keeps_if _ _ (and_then this _) => fail 1
      | |- _ => apply keeps_and_then; try solve [keeps_side]; [ | intros ? ]
      end
    | match goal with
      | |- keeps_if _ _ (if ?b then _ else _) => destruct b
      | |- keeps_if _ _ (match ?x with _ => _ end) => destruct x
      end ].

Section StorePipelines.

Variable S : Type.
Variable respond : request -> S -> (failure + response) * S.
Variable makeTemplate : object -> Template.

Lemma setPipelinesUrls_keeps_settings :
  keeps_if (W := world S) (fun _ => True) same_settings
           (StoreClient.setPipelinesUrls respond).
Proof.
  intros [self w] _. unfold StoreClient.setPipelinesUrls.
  unfold StoreClient._fetchCollection. run.
  destruct (respond _ (server w)) as [[f|resp] s]; simpl;
    [apply same_settings_refl|].
  destruct (p_collection (resp_data resp)); simpl;
    [repeat split | apply same_settings_refl].
Qed.

Lemma setPipelinesUrls_answered
    (self : StoreClient.t) (w : world S) (resp : response) (s : S)
    (coll : Collection) :
  let entry := store_get self (UStr (StoreClient.storeUrl self)) PNull in
  let urls := Collection.getLinkRelationUrls coll "pipelines" in
  respond entry (server w) = (inr resp, s) ->
  p_collection (resp_data resp) = Some coll ->
  exists self',
    StoreClient.setPipelinesUrls respond (self, w)
      = (Resolved tt, (self', logged w s [entry])) /\
    StoreClient.pipelinesUrl self' = UArr urls /\
    StoreClient.pipelinesQueryUrl self' = (join urls ++ "search/")%string /\
    pipelines_set self' /\
    same_settings self self'.
Proof.
  intros entry urls H Hcoll. subst entry urls.
  unfold StoreClient.setPipelinesUrls, and_then, this, in_world.
  cbn [fst snd].
  rewrite (fetchCollection_answered _ _ _ _ _ _ _ _ H), Hcoll.
  eexists. split; [reflexivity|]. simpl.
  repeat split. apply append_search_nonempty.
Qed.

(** [setPipelinesUrls], once the entry collection has arrived, sets
    [pipelinesUrl] to the array of the URLs of the ['pipelines'] links and
    [pipelinesQueryUrl] to the elements of that array joined by commas and
    followed by ['search/'], which is never the empty string; the store
    URLs, the credentials, the timeout and the content type stay. *)
Theorem setPipelinesUrls_sets
    (self : StoreClient.t) (w : world S) (resp : response) (s : S)
    (coll : Collection) :
  let entry := store_get self (UStr (StoreClient.storeUrl self)) PNull in
  let urls := Collection.getLinkRelationUrls coll "pipelines" in
  respond entry (server w) = (inr resp, s) ->
  p_collection (resp_data resp) = Some coll ->
  exists self',
    StoreClient.setPipelinesUrls respond (self, w)
      = (Resolved tt, (self', logged w s [entry])) /\
    StoreClient.pipelinesUrl self' = UArr urls /\
    StoreClient.pipelinesQueryUrl self' = (join urls ++ "search/")%string /\
    pipelines_set self' /\
    same_settings self self'.
Proof. exact (setPipelinesUrls_answered self w resp s coll). Qed.

(** What the helpers of the pipeline methods send begins with their
    lookup or list request. *)
Lemma fetchCollection_sent (self : StoreClient.t) (u : jsurl)
    (searchParams : params) (w : world S) :
  sent (snd (StoreClient._fetchCollection respond self u searchParams w))
    = sent w ++ [store_get self u searchParams].
Proof.
  unfold StoreClient._fetchCollection, and_then, Request_get.
  match goal with
  | |- context [send respond ?r ?w0] =>
      pose proof (sent_send _ respond r w0) as Hsent;
      destruct (send respond r w0) as [[resp|e|e] w2]
  end; exact Hsent.
Qed.

Lemma getListResourceData_first (self : StoreClient.t) (u : jsurl)
    (searchParams : params) (w : world S) :
  exists rest,
    sent (snd (StoreClient._getListResourceData respond self u searchParams
                 w))
      = sent w ++ store_get self u searchParams :: rest.
Proof.
  exists []. unfold StoreClient._getListResourceData, and_then.
  pose proof (fetchCollection_sent self u searchParams w) as Hsent.
  destruct (StoreClient._fetchCollection respond self u searchParams w)
    as [[coll|e|e] w1]; simpl in Hsent |- *; try exact Hsent.
  destruct (defined _ _ _); exact Hsent.
Qed.

Lemma getItemResourceData_first (self : StoreClient.t) (q : string)
    (id : jsval) (w : world S) :
  exists rest,
    sent (snd (StoreClient._getItemResourceData respond self q id w))
      = sent w ++ store_get self (UStr q) (PObj [("id", id)]) :: rest.
Proof.
  exists []. unfold StoreClient._getItemResourceData, and_then.
  pose proof (fetchCollection_sent self (UStr q) (PObj [("id", id)]) w)
    as Hsent.
  destruct (StoreClient._fetchCollection respond self (UStr q) _ w)
    as [[coll|e|e] w1]; simpl in Hsent |- *; try exact Hsent.
  destruct (defined _ _ _); exact Hsent.
Qed.

Lemma getResourceRelatedListData_first (self : StoreClient.t) (q : string)
    (id : jsval) (listRelName : string) (params : params) (w : world S) :
  exists rest,
    sent (snd (StoreClient._getResourceRelatedListData respond self q id
                 listRelName params w))
      = sent w ++ store_get self (UStr q) (PObj [("id", id)]) :: rest.
Proof.
  unfold StoreClient._getResourceRelatedListData, and_then.
  pose proof (fetchCollection_sent self (UStr q) (PObj [("id", id)]) w)
    as Hsent.
  destruct (StoreClient._fetchCollection respond self (UStr q) _ w)
    as [[coll|e|e] w1]; simpl in Hsent |- *;
    try (exists []; exact Hsent).
  destruct coll as [coll|]; [|exists []; exact Hsent].
  destruct (coll_items coll) as [|item items]; [exists []; exact Hsent|].
  destruct (Collection.getLinkRelationUrls item listRelName) as [|link links];
    [exists []; exact Hsent|].
  pose proof (fetchCollection_sent self (UStr link) params w1) as Hsent2.
  exists [store_get self (UStr link) params].
  destruct (StoreClient._fetchCollection respond self (UStr link) params w1)
    as [[coll2|e|e] w2]; simpl in Hsent2 |- *;
    try (destruct (defined _ _ _); simpl);
    rewrite Hsent2, Hsent, <- app_assoc; reflexivity.
Qed.

Lemma removeItemResource_first (self : StoreClient.t) (q : string)
    (id : jsval) (w : world S) :
  exists rest,
    sent (snd (StoreClient._removeItemResource respond self q id w))
      = sent w ++ store_get self (UStr q) (PObj [("id", id)]) :: rest.
Proof.
  unfold StoreClient._removeItemResource, and_then, Request_get,
    Request_delete.
  match goal with
  | |- context [send respond ?r w] =>
      pose proof (sent_send _ respond r w) as Hsent;
      destruct (send respond r w) as [[resp|e|e] w1]
  end; simpl in Hsent |- *; try (exists []; exact Hsent).
  destruct (p_collection (resp_data resp)) as [coll|];
    [|exists []; exact Hsent].
  destruct (coll_items coll) as [|item items]; [exists []; exact Hsent|].
  match goal with
  | |- context [send respond ?r w1] =>
      pose proof (sent_send _ respond r w1) as Hsent2;
      exists [r];
      destruct (send respond r w1) as [[resp2|e|e] w2]
  end; simpl in Hsent2 |- *;
    rewrite Hsent2, Hsent, <- app_assoc; reflexivity.
Qed.

(** Once the pipeline URLs are set, a pipeline method uses them and never
    sets them again: [getPipelines], [getPipeline],
    [getPipelineDefaultParameters], [getPipelinePipings],
    [getPipelinePlugins], [modifyPipeline] and [removePipeline] leave the
    client as it is, and the first request they send is the one to the
    cached URL: to [pipelinesQueryUrl] with the search parameters or the id,
    and to [pipelinesUrl] for a list without search parameters. No request
    to the entry point of the store comes before it. *)
Theorem pipeline_urls_are_cached
    (c : pipeline_call) (self : StoreClient.t) (w : world S) :
  pipelines_set self ->
  fst (snd (pipeline_method respond makeTemplate c (self, w))) = self /\
  exists rest,
    sent (snd (snd (pipeline_method respond makeTemplate c (self, w))))
      = sent w ++ cached_pipeline_request self c :: rest.
Proof.
  intros Hset. split.
  - symmetry.
    assert (Hwith : forall A
                      (k : StoreClient.t -> string -> async (world S) A),
              keeps_if pipelines_set eq
                       (StoreClient.with_pipelinesQueryUrl respond k)).
    { intros A k. unfold StoreClient.with_pipelinesQueryUrl.
      apply keeps_this_then. intros st [Hq _]. rewrite Hq. simpl.
      now rewrite in_world_state. }
    apply (keeps_at pipelines_set eq _ (self, w) Hset).
    destruct c; simpl; apply keeps_forget;
      unfold StoreClient.getPipeline,
        StoreClient.getPipelineDefaultParameters,
        StoreClient.getPipelinePipings, StoreClient.getPipelinePlugins,
        StoreClient.removePipeline; try apply Hwith.
    + unfold StoreClient.getPipelines.
      apply keeps_this_then. intros st [Hq Hu].
      destruct (params_truthy searchParams).
      * apply (keeps_at pipelines_set eq _ st (conj Hq Hu)). apply Hwith.
      * rewrite Hu. now rewrite in_world_state.
    + unfold StoreClient.modifyPipeline.
      apply keeps_this_then. intros st [Hq Hu]. rewrite Hq.
      apply (keeps_at pipelines_set eq _ st (conj Hq Hu)). keeps_steps.
      apply keeps_this_then. intros st' Hset'.
      apply (keeps_at pipelines_set eq _ st' Hset'). keeps_steps.
  - destruct Hset as [Hq Hu].
    assert (Hwith : forall A
                      (k : StoreClient.t -> string -> async (world S) A)
                      (r : request),
              (exists rest,
                 sent (snd (k self (StoreClient.pipelinesQueryUrl self) w))
                   = sent w ++ r :: rest) ->
              exists rest,
                sent (snd (snd (forget
                                  (StoreClient.with_pipelinesQueryUrl
                                     respond k) (self, w))))
                  = sent w ++ r :: rest).
    { intros A k r [rest Hk]. exists rest. unfold forget.
      rewrite with_pipelinesQueryUrl_ensure.
      unfold ensure_pipelines_urls. cbn [fst]. rewrite Hq.
      destruct (k self (StoreClient.pipelinesQueryUrl self) w)
        as [[a|e|e] w1]; exact Hk. }
    destruct c; simpl pipeline_method; cbn [cached_pipeline_request].
    + unfold StoreClient.getPipelines, and_then, this. cbn [fst snd].
      destruct (params_truthy searchParams).
      * apply Hwith, getListResourceData_first.
      * destruct (getListResourceData_first self
                    (StoreClient.pipelinesUrl self) PNull w)
          as [rest Hk].
        exists rest. unfold forget. cbn beta. cbn [fst snd]. rewrite Hu.
        rewrite in_world_run.
        destruct (StoreClient._getListResourceData respond self _ PNull w)
          as [[a|e|e] w1]; exact Hk.
    + apply Hwith, getItemResourceData_first.
    + apply Hwith, getResourceRelatedListData_first.
    + apply Hwith, getResourceRelatedListData_first.
    + apply Hwith, getResourceRelatedListData_first.
    + unfold forget, StoreClient.modifyPipeline, and_then, this.
      cbn [fst snd]. rewrite Hq. unfold resolve at 1. cbn [fst snd].
      rewrite in_world_run.
      pose proof (fetchCollection_sent self
                    (UStr (StoreClient.pipelinesQueryUrl self))
                    (PObj [("id", id)]) w) as Hsent.
      destruct (StoreClient._fetchCollection respond self _ _ w)
        as [[coll|e|e] w1]; cbn [fst snd] in Hsent |- *;
        try (exists []; exact Hsent).
      destruct coll as [coll|]; [|exists []; exact Hsent].
      destruct (coll_items coll) as [|item items];
        [exists []; exact Hsent|].
      rewrite in_world_run. unfold Request_put.
      match goal with
      | |- context [send respond ?r w1] =>
          pose proof (sent_send _ respond r w1) as Hsent2;
          exists [r];
          destruct (send respond r w1) as [[resp2|e|e] w2]
      end; cbn [fst snd] in Hsent2 |- *;
        try (unfold resolve_unguarded, resolve;
             destruct (StoreClient.getDataFromResponse resp2 "item");
             cbn [fst snd]);
        rewrite Hsent2, Hsent, <- app_assoc; reflexivity.
    + apply Hwith, removeItemResource_first.
Qed.

(** In every state, a pipeline method leaves the store URL, the query
    URL, the credentials, the timeout and the content type of the client as
    they are: only the two pipeline URLs can change. *)
Theorem pipeline_methods_keep_settings
    (c : pipeline_call) (self : StoreClient.t) (w : world S) :
  same_settings self
    (fst (snd (pipeline_method respond makeTemplate c (self, w)))).
Proof.
  pose proof setPipelinesUrls_keeps_settings as Hset.
  assert (Hwith : forall A (k : StoreClient.t -> string -> async (world S) A),
            keeps_if (fun _ => True) same_settings
                     (StoreClient.with_pipelinesQueryUrl respond k)).
  { intros A k. unfold StoreClient.with_pipelinesQueryUrl.
    apply keeps_this_then. intros st _.
    apply (keeps_at (fun _ => True) same_settings _ st I).
    keeps_steps.
    apply keeps_this_then. intros st' _. rewrite in_world_state.
    apply same_settings_refl. }
  apply (keeps_at (fun _ => True) same_settings _ (self, w) I).
  destruct c; simpl; apply keeps_forget;
    unfold StoreClient.getPipeline, StoreClient.getPipelineDefaultParameters,
      StoreClient.getPipelinePipings, StoreClient.getPipelinePlugins,
      StoreClient.removePipeline; try apply Hwith.
  - unfold StoreClient.getPipelines.
    apply keeps_this_then. intros st _.
    apply (keeps_at (fun _ => True) same_settings _ st I).
    destruct (params_truthy searchParams); [apply Hwith|].
    keeps_steps.
    apply keeps_this_then. intros st' _. rewrite in_world_state.
    apply same_settings_refl.
  - unfold StoreClient.modifyPipeline.
    apply keeps_this_then. intros st _.
    apply (keeps_at (fun _ => True) same_settings _ st I). keeps_steps.
    apply keeps_this_then. intros st' _.
    apply (keeps_at (fun _ => True) same_settings _ st' I). keeps_steps.
Qed.

End StorePipelines.

(** [setPipelinesUrls_sets] on a scripted service. *)
Lemma setPipelinesUrls_sets_witness :
  let w := Fixtures.start
             [Fixtures.ok (Fixtures.coll [Fixtures.pipelines_link] [])] in
  exists self',
    StoreClient.setPipelinesUrls Fixtures.scripted (Fixtures.store, w)
      = (Resolved tt,
         (self', logged w [] [store_get Fixtures.store
                                (UStr Fixtures.storeUrl) PNull])) /\
    StoreClient.pipelinesUrl self'
      = UArr ["http://localhost:8010/api/v1/pipelines/"] /\
    StoreClient.pipelinesQueryUrl self'
      = "http://localhost:8010/api/v1/pipelines/search/" /\
    pipelines_set self' /\
    same_settings Fixtures.store self'.
Proof.
  cbv zeta.
  exact (@setPipelinesUrls_sets _ Fixtures.scripted Fixtures.store
           (Fixtures.start
              [Fixtures.ok (Fixtures.coll [Fixtures.pipelines_link] [])])
           _ [] _ eq_refl eq_refl).
Defined.

(** [pipeline_urls_are_cached] on a scripted service: [modifyPipeline] on
    a client with cached pipeline URLs looks the id up at the cached query
    URL at once and keeps the client. *)
Lemma pipeline_urls_are_cached_witness :
  let w := Fixtures.start [Fixtures.ok (Fixtures.coll [] [Fixtures.bare 1]);
                           Fixtures.ok (Fixtures.coll [] [Fixtures.bare 1])] in
  let run := pipeline_method Fixtures.scripted Collection.makeTemplate
               (ModifyPipeline (Num 1) [("name", Str "p")])
               (Fixtures.store_with_pipelines, w) in
  fst (snd run) = Fixtures.store_with_pipelines /\
  exists rest,
    sent (snd (snd run))
      = sent w ++
        store_get Fixtures.store_with_pipelines
          (UStr "http://localhost:8010/api/v1/pipelines/search/")
          (PObj [("id", Num 1)]) :: rest.
Proof.
  cbv zeta.
  exact (@pipeline_urls_are_cached _ Fixtures.scripted
           Collection.makeTemplate
           (ModifyPipeline (Num 1) [("name", Str "p")])
           Fixtures.store_with_pipelines
           (Fixtures.start
              [Fixtures.ok (Fixtures.coll [] [Fixtures.bare 1]);
               Fixtures.ok (Fixtures.coll [] [Fixtures.bare 1])])
           (conj eq_refl eq_refl)).
Defined.

Section PipelineDiscovery.

Variable S : Type.
Variable respond : request -> S -> (failure + response) * S.

Lemma getItemResourceData_sent (self : StoreClient.t) (q : string)
    (id : jsval) (w : world S) :
  sent (snd (StoreClient._getItemResourceData respond self q id w))
    = sent w ++ [store_get self (UStr q) (PObj [("id", id)])].
Proof.
  unfold StoreClient._getItemResourceData, StoreClient._fetchCollection,
    and_then, Request_get.
  match goal with
  | |- context [send respond ?r ?w0] =>
      pose proof (@sent_send _ respond r w0) as Hsent;
      destruct (send respond r w0) as [[resp|e|e] w2]
  end; simpl in Hsent |- *; try exact Hsent.
  destruct (defined _ _ _); exact Hsent.
Qed.

(** [getPipeline] on a client whose pipeline URLs are not set: it fetches
    the entry collection first and then looks the id up at the URLs of the
    ['pipelines'] links joined by commas and followed by ['search/']: the
    one URL plus ['search/'] for one link, the relative ['search/'] for
    none. *)
Theorem getPipeline_discovers_then_queries
    (self : StoreClient.t) (id : jsval) (w : world S) (resp : response)
    (s : S) (coll : Collection) :
  let entry := store_get self (UStr (StoreClient.storeUrl self)) PNull in
  let q := (join (Collection.getLinkRelationUrls coll "pipelines")
            ++ "search/")%string in
  StoreClient.pipelinesQueryUrl self = "" ->
  respond entry (server w) = (inr resp, s) ->
  p_collection (resp_data resp) = Some coll ->
  sent (snd (snd (StoreClient.getPipeline respond id (self, w))))
    = sent w ++ [entry; store_get self (UStr q) (PObj [("id", id)])].
Proof.
  intros entry q Hempty H Hcoll. subst entry q.
  destruct (setPipelinesUrls_answered _ respond self w resp s coll H Hcoll)
    as (self' & Hrun & _ & Hq & _ & (_ & _ & Hauth & Htimeout & Htype)).
  unfold StoreClient.getPipeline.
  rewrite with_pipelinesQueryUrl_ensure.
  unfold ensure_pipelines_urls. cbn [fst]. rewrite Hempty. simpl (_ =? _).
  cbv iota. rewrite Hrun.
  pose proof (getItemResourceData_sent self'
                (StoreClient.pipelinesQueryUrl self') id
                (logged w s [store_get self
                               (UStr (StoreClient.storeUrl self)) PNull]))
    as Hsent.
  destruct (StoreClient._getItemResourceData respond self' _ id _)
    as [o w2].
  cbn [fst snd] in Hsent |- *. rewrite Hsent, Hq.
  unfold logged, store_get. simpl. rewrite <- app_assoc.
  now rewrite Hauth, Htimeout, Htype.
Qed.

End PipelineDiscovery.

(** [getPipeline_discovers_then_queries] on a scripted service. *)
Lemma getPipeline_discovers_then_queries_witness :
  let root := Fixtures.coll [Fixtures.pipelines_link] [] in
  let w := Fixtures.start [Fixtures.ok root;
                           Fixtures.ok (Fixtures.coll [] [])] in
  sent (snd (snd (StoreClient.getPipeline Fixtures.scripted (Num 1)
                    (Fixtures.store, w))))
    = [store_get Fixtures.store (UStr Fixtures.storeUrl) PNull;
       store_get Fixtures.store
         (UStr "http://localhost:8010/api/v1/pipelines/search/")
         (PObj [("id", Num 1)])].
Proof.
  cbv zeta.
  exact (@getPipeline_discovers_then_queries _ Fixtures.scripted
           Fixtures.store (Num 1)
           (Fixtures.start
              [Fixtures.ok (Fixtures.coll [Fixtures.pipelines_link] []);
               Fixtures.ok (Fixtures.coll [] [])])
           _ _ (Fixtures.coll [Fixtures.pipelines_link] [])
           eq_refl eq_refl eq_refl).
Defined.

(** * Further properties of the API client *)

Section ClientEdges.

Variable S : Type.
Variable respond : request -> S -> (failure + response) * S.
Variable makeTemplate : object -> Template.

Lemma set_url_identity (f : Client.top_url) (u : jsurl) (self : Client.t) :
  Client.url (Client.set_url f u self) = Client.url self /\
  Client.auth (Client.set_url f u self) = Client.auth self /\
  Client.feedsUrl (Client.set_url f u self) = Client.feedsUrl self.
Proof. repeat split. Qed.

Lemma discover_identity (fs : list Client.top_url) (coll : option Collection) :
  forall self,
    Client.url (fst (Client.discover fs coll self)) = Client.url self /\
    Client.auth (fst (Client.discover fs coll self)) = Client.auth self /\
    Client.feedsUrl (fst (Client.discover fs coll self))
      = Client.feedsUrl self.
Proof.
  induction fs as [|f fs IH]; intros self; simpl; [repeat split|].
  destruct (url_truthy (Client.get_url f self)).
  - destruct (IH (Client.set_url f (Client.get_url f self) self))
      as (-> & -> & ->). repeat split.
  - destruct coll as [c|]; [|repeat split].
    destruct (IH (Client.set_url f
                    (UArr (Collection.getLinkRelationUrls
                             c (Client.relation f))) self))
      as (-> & -> & ->). repeat split.
Qed.

(** When the fetch of the feed list fails in the transport, [getFeeds]
    rejects with the transport's [RequestException] and none of the URL
    fields of the client is assigned. *)
Theorem getFeeds_failure_assigns_nothing
    (searchParams : params) (timeout : Z) (self : Client.t) (w : world S)
    (f : failure) (s : S) :
  let fetch := resource_request (Client.feedsUrl self) (Client.auth self)
                 GET searchParams NoBody None timeout in
  respond fetch (server w) = (inl f, s) ->
  Client.getFeeds respond searchParams timeout (self, w) =
    (Rejected (transport_error f fetch), (self, logged w s [fetch])).
Proof.
  cbv zeta. intros H.
  unfold Client.getFeeds, Client.on_object, Resource.ListResource_get,
    Resource.wire, Resource.new, resource_request, transport_error,
    StoreClient.collection_json in *.
  set (assignments := Client.discover Client.top_urls).
  run. simpl in H. now rewrite H.
Qed.

(** One answered [getFeeds] populates all eight URL fields at once: a
    field that was populated keeps its value, and a field that was empty
    holds the array of the URLs of its relation, which is truthy even when
    the collection has no such link. The service URL, the feeds URL and the
    credentials stay. *)
Theorem getFeeds_populates_every_field
    (searchParams : params) (timeout : Z) (self : Client.t) (w : world S)
    (resp : response) (s : S) (coll : Collection) :
  let fetch := resource_request (Client.feedsUrl self) (Client.auth self)
                 GET searchParams NoBody None timeout in
  let self' :=
    fst (snd (Client.getFeeds respond searchParams timeout (self, w))) in
  respond fetch (server w) = (inr resp, s) ->
  p_collection (resp_data resp) = Some coll ->
  (forall g,
     Client.get_url g self' =
       (if url_truthy (Client.get_url g self) then Client.get_url g self
        else UArr (Collection.getLinkRelationUrls coll (Client.relation g)))
     /\ url_truthy (Client.get_url g self') = true) /\
  Client.url self' = Client.url self /\
  Client.auth self' = Client.auth self /\
  Client.feedsUrl self' = Client.feedsUrl self.
Proof.
  cbv zeta. intros H Hcoll.
  rewrite (getFeeds_answered _ respond searchParams timeout self w resp s
             coll H Hcoll).
  cbn [fst snd]. split; [|apply discover_identity].
  intros g.
  destruct (discover_fills coll Client.top_urls self) as [_ Hfill].
  rewrite Hfill.
  assert (existsb (Client.top_url_eqb g) Client.top_urls = true) as ->
      by (destruct g; reflexivity).
  destruct (url_truthy (Client.get_url g self)) eqn:Hg; simpl; auto.
Qed.

(** A getter whose URL field is empty passes that empty value to
    [_fetchRes], and the fetch that follows the discovery still goes to it:
    the second request of the call is sent to the empty URL, not to the URL
    that the discovery has just stored in the field. *)
Theorem getter_fetches_stale_url
    (f : Client.top_url) (searchParams : params) (timeout : Z)
    (self : Client.t) (w : world S) (resp : response) (s : S)
    (coll : Collection) :
  url_truthy (Client.get_url f self) = false ->
  respond (discovery_request self) (server w) = (inr resp, s) ->
  p_collection (resp_data resp) = Some coll ->
  exists r,
    rq_url r = Client.get_url f self /\
    sent (snd (snd (Client.getter respond f searchParams timeout (self, w))))
      = sent w ++ [discovery_request self; r].
Proof.
  intros Hempty H Hcoll.
  destruct (getter_fetchRes _ respond f searchParams timeout (self, w))
    as (cls & sp & ->).
  cbn [fst]. unfold Client._fetchRes, Client.setUrls. rewrite Hempty.
  unfold and_then at 1.
  rewrite (getFeeds_answered _ respond (PNum 30000) 30000 self w resp s coll
             H Hcoll).
  unfold and_then, this. cbn [fst snd]. rewrite in_world_run. cbn [fst snd].
  destruct (discover_identity Client.top_urls (Some coll) self)
    as (_ & Hauth & _).
  destruct (getRes_run _ respond cls
              (Resource.new (Client.get_url f self)
                 (Client.auth (fst (Client.discover Client.top_urls
                                      (Some coll) self))))
              sp timeout
              (logged w s [discovery_request self]))
    as (r & Hurl & Hsent).
  exists r. split; [exact Hurl|].
  unfold discovery_request in *. rewrite Hsent.
  unfold logged. simpl. now rewrite <- app_assoc.
Qed.

Lemma post_sent (res : Resource.t) (data : object) (file : option upload)
    (timeout : Z) (w : world S) :
  sent (snd (Client.on_object res
               (Resource.ListResource_post respond makeTemplate data file
                                           timeout) w))
    = sent w ++ [post_request makeTemplate (Resource.url res)
                              (Resource.auth res) data file timeout].
Proof.
  unfold Client.on_object, Resource.ListResource_post, Resource.wire,
    post_request, resource_request, StoreClient.collection_json.
  run.
  destruct file as [file|];
    match goal with
    | |- context [respond ?r (server w)] =>
        destruct (respond r (server w)) as [[f|resp] s0]
    end; simpl; try reflexivity;
    destruct (Resource.decode resp); reflexivity.
Qed.

(** [createPipeline], [createTag] and [uploadFile] read their URL field
    when [createRes] runs. With a populated field they send one POST, to
    the cached value, and leave the client as it is. With an empty field
    they discover first, and the POST goes to the array of URLs that the
    discovery has just stored in the field. *)
Theorem create_posts_to_current_url
    (f : Client.top_url) (data : object) (file : option upload)
    (timeout : Z) (self : Client.t) (w : world S) :
  (url_truthy (Client.get_url f self) = true ->
   sent (snd (snd (Client.create_at respond makeTemplate f data file
                                    timeout (self, w))))
     = sent w ++ [post_request makeTemplate (Client.get_url f self)
                               (Client.auth self) data file timeout] /\
   fst (snd (Client.create_at respond makeTemplate f data file timeout
                              (self, w))) = self) /\
  (forall resp s coll,
     url_truthy (Client.get_url f self) = false ->
     respond (discovery_request self) (server w) = (inr resp, s) ->
     p_collection (resp_data resp) = Some coll ->
     sent (snd (snd (Client.create_at respond makeTemplate f data file
                                      timeout (self, w))))
       = sent w ++ [discovery_request self;
                    post_request makeTemplate
                      (UArr (Collection.getLinkRelationUrls
                               coll (Client.relation f)))
                      (Client.auth self) data file timeout]).
Proof.
  split.
  - intros Hfull. unfold Client.create_at, and_then, this.
    cbn [fst snd]. rewrite Hfull. cbn [fst snd].
    rewrite in_world_run. cbn [fst snd].
    pose proof (post_sent (Resource.new (Client.get_url f self)
                             (Client.auth self)) data file timeout w)
      as Hsent.
    destruct (Client.on_object _ _ w) as [[res|e|e] w2];
      cbn [fst snd] in *; split; (exact Hsent || reflexivity).
  - intros resp s coll Hempty H Hcoll.
    unfold Client.create_at, Client.setUrls, and_then, this.
    cbn [fst snd]. rewrite Hempty. cbv beta.
    rewrite (getFeeds_answered _ respond (PNum 30000) 30000 self w resp s
               coll H Hcoll).
    cbn [fst snd]. rewrite in_world_run. cbn [fst snd].
    destruct (discover_identity Client.top_urls (Some coll) self)
      as (_ & Hauth & _).
    destruct (discover_fills coll Client.top_urls self) as [_ Hfill].
    pose proof (post_sent
                  (Resource.new
                     (Client.get_url f (fst (Client.discover Client.top_urls
                                               (Some coll) self)))
                     (Client.auth (fst (Client.discover Client.top_urls
                                          (Some coll) self))))
                  data file timeout
                  (logged w s [discovery_request self])) as Hsent.
    unfold discovery_request in *.
    destruct (Client.on_object _ _ _) as [[res|e|e] w2];
      unfold resolve; cbn [fst snd] in *;
      rewrite Hsent, Hfill, Hempty, Hauth;
      (assert (existsb (Client.top_url_eqb f) Client.top_urls = true) as ->
          by (destruct f; reflexivity));
      simpl; now rewrite <- app_assoc.
Qed.

(** [createUser] resolves to a [User] at the [href] of the first item of
    the response, holding the username and password just registered as its
    credentials and the response collection as its state. A response
    collection without items makes it reject with a [TypeError]. *)
Theorem createUser_resolves_to_user
    (usersUrl username password email : string) (timeout : Z)
    (w : world S) (resp : response) (s : S) (coll : Collection) :
  let registration :=
    account_request usersUrl username password email timeout in
  respond registration (server w) = (inr resp, s) ->
  p_collection (resp_data resp) = Some coll ->
  (forall item rest,
     coll_items coll = item :: rest ->
     exists user,
       Client.createUser respond usersUrl username password email timeout w
         = (Resolved user, logged w s [registration]) /\
       Resource.url user = UStr (item_href item) /\
       Resource.auth user = BasicAuth username password /\
       Resource.collection user = Some coll) /\
  (coll_items coll = [] ->
   Client.createUser respond usersUrl username password email timeout w
     = (Rejected (undefined_read "href"), logged w s [registration])).
Proof.
  cbv zeta. intros H Hcoll. split.
  - intros item rest Hitems. eexists.
    unfold Client.createUser, and_then. answered H.
    rewrite Hcoll. simpl. rewrite Hitems. simpl.
    repeat split.
  - intros Hitems.
    unfold Client.createUser, and_then. answered H.
    rewrite Hcoll. simpl. now rewrite Hitems.
Qed.

(** [createPluginInstance] and [createPipelineInstance] do not check that
    the item has an ['instances'] link: without one, [instancesUrl[0]] is
    [undefined] and the POST is sent all the same, to that URL. *)
Theorem instance_post_without_link
    (self : Client.t) (res : Resource.t) (data : object) (timeout : Z)
    (w : world S) (coll : Collection) (item : Item) (items : list Item) :
  Resource.collection res = Some coll ->
  coll_items coll = item :: items ->
  (forall l, In l (item_links item) -> link_rel l <> "instances") ->
  (forall pluginId (st : Client.t * world S),
     Client.getPlugin respond pluginId timeout st = (Resolved res, (self, w))
     -> sent (snd (snd (Client.createPluginInstance respond makeTemplate
                          pluginId data timeout st)))
        = sent w ++ [post_request makeTemplate UUndefined (Client.auth self)
                                  data None timeout]) /\
  (forall pipelineId (st : Client.t * world S),
     Client.getPipeline respond pipelineId timeout st
       = (Resolved res, (self, w))
     -> sent (snd (snd (Client.createPipelineInstance respond makeTemplate
                          pipelineId data timeout st)))
        = sent w ++ [post_request makeTemplate UUndefined (Client.auth self)
                                  data None timeout]).
Proof.
  intros Hcoll Hitems Hno.
  pose proof (proj2 (@getLinkRelationUrls_nil Item Linked_Item item
                       "instances") Hno) as Hnil.
  assert (Hpost :
    sent (snd (Client.post_instance respond makeTemplate self res data
                                    timeout w))
      = sent w ++ [post_request makeTemplate UUndefined (Client.auth self)
                                data None timeout]).
  { unfold Client.post_instance. rewrite Hcoll. simpl. rewrite Hitems.
    simpl. rewrite Hnil. simpl first_url.
    apply (post_sent (Resource.new UUndefined (Client.auth self))). }
  split.
  - intros pluginId st Hget.
    unfold Client.createPluginInstance, and_then.
    rewrite Hget. unfold this, in_world. cbn [fst snd].
    destruct (Client.post_instance respond makeTemplate self res data
                timeout w) as [[r|e|e] w2]; exact Hpost.
  - intros pipelineId st Hget.
    unfold Client.createPipelineInstance, and_then.
    rewrite Hget. unfold this, in_world. cbn [fst snd].
    destruct (Client.post_instance respond makeTemplate self res data
                timeout w) as [[r|e|e] w2]; exact Hpost.
Qed.

End ClientEdges.

(** [getFeeds_failure_assigns_nothing] on a scripted service. *)
Lemma getFeeds_failure_assigns_nothing_witness :
  let fetch := resource_request (UStr Fixtures.chrisUrl) Fixtures.cube GET
                                PNull NoBody None 30000 in
  let w := Fixtures.start [Fixtures.timed_out] in
  Client.getFeeds Fixtures.scripted PNull 30000 (Fixtures.chris, w)
    = (Rejected (transport_error
                   {| f_message := "timeout of 30000ms exceeded";
                      f_response := None |} fetch),
       (Fixtures.chris, logged w [] [fetch])).
Proof.
  cbv zeta.
  exact (@getFeeds_failure_assigns_nothing _ Fixtures.scripted PNull 30000
           Fixtures.chris (Fixtures.start [Fixtures.timed_out]) _ []
           eq_refl).
Defined.

(** [getFeeds_populates_every_field] on a scripted service. *)
Lemma getFeeds_populates_every_field_witness :
  let self' :=
    fst (snd (Client.getFeeds Fixtures.scripted PNull 30000
                (Fixtures.chris,
                 Fixtures.start [Fixtures.ok Fixtures.feeds]))) in
  Client.get_url Client.TagsUrl self'
    = UArr ["http://localhost:8000/api/v1/tags/"] /\
  Client.get_url Client.PipelinesUrl self' = UArr [] /\
  url_truthy (Client.get_url Client.PipelinesUrl self') = true.
Proof.
  cbv zeta.
  destruct (@getFeeds_populates_every_field _ Fixtures.scripted PNull 30000
              Fixtures.chris (Fixtures.start [Fixtures.ok Fixtures.feeds])
              _ [] Fixtures.feeds eq_refl eq_refl)
    as (Hfields & _).
  repeat apply conj.
  - exact (proj1 (Hfields Client.TagsUrl)).
  - exact (proj1 (Hfields Client.PipelinesUrl)).
  - exact (proj2 (Hfields Client.PipelinesUrl)).
Defined.

(** [getter_fetches_stale_url] on a scripted service. *)
Lemma getter_fetches_stale_url_witness :
  exists r,
    rq_url r = UStr "" /\
    sent (snd (snd (Client.getter Fixtures.scripted Client.TagsUrl PNull
                      30000
                      (Fixtures.chris,
                       Fixtures.start [Fixtures.ok Fixtures.feeds;
                                       Fixtures.ok (Fixtures.coll [] [])]))))
      = [discovery_request Fixtures.chris; r].
Proof.
  exact (@getter_fetches_stale_url _ Fixtures.scripted Client.TagsUrl PNull
           30000 Fixtures.chris
           (Fixtures.start [Fixtures.ok Fixtures.feeds;
                            Fixtures.ok (Fixtures.coll [] [])])
           _ _ Fixtures.feeds eq_refl eq_refl eq_refl).
Defined.

(** [create_posts_to_current_url] on a scripted service. *)
Lemma create_posts_to_current_url_witness :
  let data := [("color", Str "red")] in
  sent (snd (snd (Client.createTag Fixtures.scripted Collection.makeTemplate
                    data 30000
                    (Fixtures.chris,
                     Fixtures.start [Fixtures.ok Fixtures.feeds;
                                     Fixtures.ok (Fixtures.coll [] [])]))))
    = [discovery_request Fixtures.chris;
       post_request Collection.makeTemplate
         (UArr ["http://localhost:8000/api/v1/tags/"]) Fixtures.cube data
         None 30000] /\
  sent (snd (snd (Client.uploadFile Fixtures.scripted Collection.makeTemplate
                    [("upload_path", Str "/test.txt")]
                    (Some ("fname", "This is a test file")) 30000
                    (Fixtures.discovered,
                     Fixtures.start [Fixtures.ok (Fixtures.coll [] [])]))))
    = [post_request Collection.makeTemplate (UArr []) Fixtures.cube
         [("upload_path", Str "/test.txt")]
         (Some ("fname", "This is a test file")) 30000].
Proof.
  cbv zeta. split.
  - exact (proj2 (@create_posts_to_current_url _ Fixtures.scripted
                    Collection.makeTemplate Client.TagsUrl
                    [("color", Str "red")] None 30000 Fixtures.chris
                    (Fixtures.start [Fixtures.ok Fixtures.feeds;
                                     Fixtures.ok (Fixtures.coll [] [])]))
                 _ _ Fixtures.feeds eq_refl eq_refl eq_refl).
  - exact (proj1 (proj1 (@create_posts_to_current_url _ Fixtures.scripted
                    Collection.makeTemplate Client.UploadedFilesUrl
                    [("upload_path", Str "/test.txt")]
                    (Some ("fname", "This is a test file")) 30000
                    Fixtures.discovered
                    (Fixtures.start [Fixtures.ok (Fixtures.coll [] [])]))
                 eq_refl)).
Defined.

(** [createUser_resolves_to_user] on a scripted service. *)
Lemma createUser_resolves_to_user_witness :
  let users := "http://localhost:8000/api/v1/users/" in
  (exists user,
     fst (Client.createUser Fixtures.scripted users "cube" "cube1234"
            "cube@babymri.org" 30000
            (Fixtures.start [Fixtures.ok (Fixtures.coll []
                                            [Fixtures.bare 5])]))
       = Resolved user /\
     Resource.url user = UStr (item_href (Fixtures.bare 5)) /\
     Resource.auth user = BasicAuth "cube" "cube1234") /\
  fst (Client.createUser Fixtures.scripted users "cube" "cube1234"
         "cube@babymri.org" 30000
         (Fixtures.start [Fixtures.ok (Fixtures.coll [] [])]))
    = Rejected (undefined_read "href").
Proof.
  cbv zeta. split.
  - destruct (proj1 (@createUser_resolves_to_user _ Fixtures.scripted
                       "http://localhost:8000/api/v1/users/" "cube"
                       "cube1234" "cube@babymri.org" 30000
                       (Fixtures.start [Fixtures.ok (Fixtures.coll []
                                                       [Fixtures.bare 5])])
                       _ [] _ eq_refl eq_refl)
                    (Fixtures.bare 5) [] eq_refl)
      as (user & Hrun & Hurl & Hauth & _).
    exists user. repeat split; [exact (f_equal fst Hrun) | exact Hurl
                               | exact Hauth].
  - exact (f_equal fst
             (proj2 (@createUser_resolves_to_user _ Fixtures.scripted
                       "http://localhost:8000/api/v1/users/" "cube"
                       "cube1234" "cube@babymri.org" 30000
                       (Fixtures.start [Fixtures.ok (Fixtures.coll [] [])])
                       _ [] _ eq_refl eq_refl) eq_refl)).
Defined.

(** [instance_post_without_link] on a scripted service. *)
Lemma instance_post_without_link_witness :
  let plugins := Fixtures.ok (Fixtures.coll [] [Fixtures.plugin 1 []]) in
  let data := [("title", Str "test")] in
  map rq_url
    (sent (snd (snd (Client.createPluginInstance Fixtures.scripted
                       Collection.makeTemplate (Num 1) data 30000
                       (Fixtures.discovered,
                        Fixtures.start [plugins;
                                        Fixtures.ok (Fixtures.coll [] [])])))))
    = [Client.pluginsUrl Fixtures.discovered; UUndefined].
Proof.
  cbv zeta.
  eassert (Hget :
    Client.getPlugin Fixtures.scripted (Num 1) 30000
      (Fixtures.discovered,
       Fixtures.start [Fixtures.ok (Fixtures.coll [] [Fixtures.plugin 1 []]);
                       Fixtures.ok (Fixtures.coll [] [])])
    = (Resolved _, (Fixtures.discovered, _))) by (cbv; reflexivity).
  match type of Hget with
  | _ = (Resolved ?r, (_, ?w0)) =>
      edestruct (@instance_post_without_link _ Fixtures.scripted
                   Collection.makeTemplate Fixtures.discovered r
                   [("title", Str "test")] 30000 w0)
        as (Hplugin & _)
  end.
  - cbv. reflexivity.
  - cbv. reflexivity.
  - simpl. intros l [].
  - rewrite (Hplugin _ _ Hget). reflexivity.
Defined.

Section ModifyPipeline.

Variable S : Type.
Variable respond : request -> S -> (failure + response) * S.
Variable makeTemplate : object -> Template.

(** [modifyPipeline] with the pipeline URLs set: after the lookup at the
    cached query URL it puts the template built from the caller's [data],
    unchanged, to the [href] of the first item found. *)
Theorem modifyPipeline_puts_data
    (self : StoreClient.t) (id : jsval) (data : object) (w : world S)
    (resp : response) (s : S) (coll : Collection) (item : Item)
    (rest : list Item) :
  let lookup := store_get self (UStr (StoreClient.pipelinesQueryUrl self))
                          (PObj [("id", id)]) in
  (StoreClient.pipelinesQueryUrl self =? "") = false ->
  StoreClient.contentType self = StoreClient.collection_json ->
  respond lookup (server w) = (inr resp, s) ->
  p_collection (resp_data resp) = Some coll ->
  coll_items coll = item :: rest ->
  sent (snd (snd (StoreClient.modifyPipeline respond makeTemplate id data
                                             (self, w))))
    = sent w ++ [lookup;
                 store_put self (UStr (item_href item))
                           (BodyTemplate (makeTemplate data))].
Proof.
  intros lookup Hq Hct H Hcoll Hitems. subst lookup.
  unfold StoreClient.modifyPipeline, and_then, this. cbn [fst snd].
  rewrite Hq. unfold resolve at 1. cbn [fst snd].
  rewrite in_world_run.
  rewrite (fetchCollection_answered _ respond _ _ _ _ _ _ H).
  cbn [fst snd]. rewrite Hcoll. cbv beta iota. rewrite Hitems.
  cbv beta iota. rewrite in_world_run. cbn [fst snd].
  unfold StoreClient.encode. rewrite Hct, String.eqb_refl.
  unfold Request_put.
  match goal with
  | |- context [send respond ?r ?w0] =>
      pose proof (@sent_send _ respond r w0) as Hsent;
      destruct (send respond r w0) as [[resp2|e|e] w2]
  end; simpl in Hsent |- *;
    try (destruct (StoreClient.getDataFromResponse resp2 "item"); simpl);
    rewrite Hsent; unfold logged; simpl; rewrite <- app_assoc; reflexivity.
Qed.

End ModifyPipeline.

(** [modifyPipeline_puts_data] on a scripted service. *)
Lemma modifyPipeline_puts_data_witness :
  let data := [("name", Str "p"); ("category", Str "mri")] in
  let item := Fixtures.bare 1 in
  sent (snd (snd (StoreClient.modifyPipeline Fixtures.scripted
                    Collection.makeTemplate (Num 1) data
                    (Fixtures.store_with_pipelines,
                     Fixtures.start [Fixtures.ok (Fixtures.coll [] [item]);
                                     Fixtures.ok (Fixtures.coll []
                                                    [item])]))))
    = [store_get Fixtures.store_with_pipelines
         (UStr "http://localhost:8010/api/v1/pipelines/search/")
         (PObj [("id", Num 1)]);
       store_put Fixtures.store_with_pipelines (UStr (item_href item))
         (BodyTemplate (Collection.makeTemplate data))].
Proof.
  cbv zeta.
  exact (@modifyPipeline_puts_data _ Fixtures.scripted
           Collection.makeTemplate Fixtures.store_with_pipelines (Num 1)
           [("name", Str "p"); ("category", Str "mri")]
           (Fixtures.start [Fixtures.ok (Fixtures.coll [] [Fixtures.bare 1]);
                            Fixtures.ok (Fixtures.coll []
                                           [Fixtures.bare 1])])
           _ _ _ (Fixtures.bare 1) [] eq_refl eq_refl eq_refl eq_refl
           eq_refl).
Defined.
